(** * aranGO: cursor pagination and document checks

    A shallow embedding of [cursor.go] and [document.go].  The two files
    are glue over a remote HTTP API: every interesting step either reads
    or writes the fields of a [Cursor] / [Document], or calls out to a
    collaborator that lives outside the two files (the [Database]
    transport with its [send] and [get], [encoding/json], [reflect]).

    The collaborators are kept abstract (class [Collaborators]); the
    methods are written in a small state-and-panic monad whose state holds
    the receiver, the caller's decode target, the remote world and a log of
    every collaborator call, so that "no network call" is a statement
    about the log. *)

From Stdlib Require Import ZArith List String Ascii Bool Lia DecimalString.
Import ListNotations.

Local Open Scope string_scope.
Local Open Scope Z_scope.

Set Implicit Arguments.

(** ** Go values *)

Module Go.

(** [int] on the 64-bit targets: a [Z] kept in [-2^63, 2^63). *)
Definition int := Z.
Definition MaxInt : Z := 2 ^ 63 - 1.
Definition MinInt : Z := - 2 ^ 63.

Definition wrap (z : Z) : int := (z + 2 ^ 63) mod 2 ^ 64 - 2 ^ 63.

(** [i++] *)
Definition incr (i : int) : int := wrap (i + 1).

(** [len(s)] of a slice. *)
Definition len {A} (s : list A) : int := Z.of_nat (List.length s).

(** [s[i]]: [None] is the run-time "index out of range" panic. *)
Definition index {A} (s : list A) (i : int) : option A :=
  if (0 <=? i) && (i <? len s) then nth_error s (Z.to_nat i) else None.

(** [strconv.Itoa] *)
Definition Itoa (i : int) : string := NilZero.string_of_int (Z.to_int i).

(** [strings.Split(s, sep)] for a separator of one byte: the segments
    between the occurrences of [sep], so one more than there are
    occurrences. *)
Fixpoint Split (s : string) (sep : ascii) : list string :=
  match s with
  | EmptyString => [EmptyString]
  | String ch rest =>
      if Ascii.eqb ch sep then EmptyString :: Split rest sep
      else match Split rest sep with
           | seg :: segs => String ch seg :: segs
           | [] => [String ch EmptyString]
           end
  end.

(** [reflect.Kind] *)
Inductive Kind :=
| Invalid | Bool | Int | Int8 | Int16 | Int32 | Int64
| Uint | Uint8 | Uint16 | Uint32 | Uint64 | Uintptr
| Float32 | Float64 | Complex64 | Complex128
| Array | Chan | Func | Interface | Map | Pointer | Slice
| String_ | Struct | UnsafePointer.

Definition Kind_eqb (a b : Kind) : bool :=
  match a, b with
  | Invalid, Invalid | Bool, Bool | Int, Int | Int8, Int8 | Int16, Int16
  | Int32, Int32 | Int64, Int64 | Uint, Uint | Uint8, Uint8
  | Uint16, Uint16 | Uint32, Uint32 | Uint64, Uint64 | Uintptr, Uintptr
  | Float32, Float32 | Float64, Float64 | Complex64, Complex64
  | Complex128, Complex128 | Array, Array | Chan, Chan | Func, Func
  | Interface, Interface | Map, Map | Pointer, Pointer | Slice, Slice
  | String_, String_ | Struct, Struct | UnsafePointer, UnsafePointer => true
  | _, _ => false
  end.

(** Run-time panics the two files can raise. *)
Inductive panic :=
| index_out_of_range (i : int) (length : int)
| Elem_of_non_pointer.

End Go.

(** ** The state-and-panic monad *)

Inductive outcome (A : Type) :=
| Returns (a : A)
| Panics (p : Go.panic).
Arguments Panics {A} p.

Definition M (S A : Type) : Type := S -> outcome A * S.

Definition ret {S A} (a : A) : M S A := fun s => (Returns a, s).

Definition bind {S A B} (m : M S A) (k : A -> M S B) : M S B :=
  fun s => match m s with
           | (Returns a, s') => k a s'
           | (Panics p, s') => (Panics p, s')
           end.

Definition throw {S A} (p : Go.panic) : M S A := fun s => (Panics p, s).
Definition reads {S A} (f : S -> A) : M S A := fun s => (Returns (f s), s).
Definition modify {S} (f : S -> S) : M S unit := fun s => (Returns tt, f s).

Declare Scope go_scope.
Delimit Scope go_scope with go.
Notation "x <- m ;; k" := (bind m (fun x => k))
  (at level 61, m at next level, right associativity) : go_scope.
Notation "' pat <- m ;; k" := (bind m (fun x => match x with pat => k end))
  (at level 61, pat pattern, m at next level, right associativity) : go_scope.
Notation "m ;;; k" := (bind m (fun _ => k))
  (at level 61, right associativity) : go_scope.
Local Open Scope go_scope.

(** ** What lies outside the two files *)

Class Externals := {
  Row : Type;          (* an element of [Result []interface{}] *)
  Target : Type;       (* the caller's [r interface{}] *)
  Database : Type;     (* what a non-nil [*Database] points to *)
  World : Type;        (* the server and the connection to it *)
  Response : Type;     (* what [send] and [get] return besides the error *)
  Status : Response -> Go.int;   (* [res.Status()] *)
  Foreign : Type       (* errors of the transport and of encoding/json *)
}.

(** Errors: the ones built here with [errors.New], and the opaque ones the
    collaborators hand back. *)
Inductive error {X : Externals} :=
| errors_New (text : string)
| foreign (e : Foreign).

(** Every call that leaves the two files is logged, most recent first. *)
Inductive call :=
| call_send (resource id method : string)
| call_get (resource id method : string)
| call_Marshal
| call_Unmarshal.

Definition is_request (c : call) : bool :=
  match c with
  | call_send _ _ _ | call_get _ _ _ => true
  | call_Marshal | call_Unmarshal => false
  end.

Definition requests (t : list call) : list call := filter is_request t.

Record Net {X : Externals} := {
  world : World;
  trace : list call
}.

Definition logged {X : Externals} (c : call) (n : Net) : Net :=
  {| world := world n; trace := c :: trace n |}.

(** ** document.go *)

Module document.
Section Methods.

Context {X : Externals}.

(** The transport, as the document methods use it:
    [db.get(resource, id, method, nil, nil, nil)]. *)
Class Reader := {
  get : Database -> string -> string -> string -> World ->
        World * (Response * option error)
}.
Context {R : Reader}.

Record Document := {
  Id : string;
  Rev : string;
  Key : string;
  Error : bool;
  Message : string;
  Code : Go.int;
  Num : Go.int
}.

(** [len(sid) != 2] is the fall-through of the match; [sid[1]] is its [key]. *)
Definition NewDocument (id : string) : option Document * option error :=
  let sid := Go.Split id "/"%char in
  match sid with
  | [_; key] =>
      if String.eqb id "" then (None, Some (errors_New "Invalid empty id"))
      else
        (Some {| Id := id; Rev := ""; Key := key; Error := false;
                 Message := ""; Code := 0; Num := 0 |}, None)
  | _ => (None, Some (errors_New "Invalid id"))
  end.

(** [db.get(...)] on a non-nil [db]. *)
Definition db_get (d : Database) (resource id method : string)
  : M Net (Response * option error) :=
  fun n =>
    let '(w, reply) := get d resource id method (world n) in
    (Returns reply, {| world := w; trace := call_get resource id method :: trace n |}).

Definition Updated (d : Document) (db : option Database)
  : M Net (bool * option error) :=
  match db with
  | None => ret (false, Some (errors_New "Invalid db"))
  | Some h =>
      if String.eqb (Id d) "" || String.eqb (Rev d) "" then
        ret (false,
             Some (errors_New "Document must exist or have valid _rev and _id"))
      else
        '(res, err) <- db_get h "document" (Id d ++ "?rev=" ++ Rev d) "GET" ;;
        match err with
        | Some e => ret (false, Some e)
        | None =>
            if Status res =? 404 then ret (true, None)
            else if Status res =? 412 then ret (true, None)
            else ret (false, None)
        end
  end.

Definition Exist (d : Document) (db : option Database)
  : M Net (bool * option error) :=
  match db with
  | None => ret (false, Some (errors_New "Invalid db"))
  | Some h =>
      if String.eqb (Id d) "" then
        ret (false,
             Some (errors_New "Document must exist or have valid _rev and _id"))
      else
        '(res, err) <- db_get h "document" (Id d) "GET" ;;
        match err with
        | Some e => ret (false, Some e)
        | None =>
            if Status res =? 404 then ret (false, None)
            else ret (true, None)
        end
  end.

Definition SetKey (d : Document) (key : string) : Document * option error :=
  ({| Id := Id d; Rev := Rev d; Key := key; Error := Error d;
      Message := Message d; Code := Code d; Num := Num d |}, None).

Definition SetRev (d : Document) (rev : string) : Document * option error :=
  ({| Id := Id d; Rev := rev; Key := Key d; Error := Error d;
      Message := Message d; Code := Code d; Num := Num d |}, None).

End Methods.
End document.

(** ** cursor.go *)

Module cursor.
Section Methods.

Context {X : Externals}.

Record Stats := {
  WritesExecuted : Go.int;
  WritesIgnored : Go.int;
  ScannedFull : Go.int;
  ScannedIndex : Go.int;
  Filtered : Go.int;
  ExecutionTime : Z;        (* a float64, as its 64 bits *)
  Stats_FullCount : Go.int
}.

Record Extra := {
  Extra_Stats : Stats;
  Warnings : list Row
}.

Record Cursor := {
  db : option Database;
  Id : string;
  Index : Go.int;
  Result : list Row;
  More : bool;
  Amount : Go.int;
  Data : Extra;
  Cached : bool;
  Err : bool;
  ErrMsg : string;
  Code : Go.int;
  max : Go.int;
  Time : Z                  (* a time.Duration, in nanoseconds *)
}.

(** What [json.Marshal] is handed: one row, or the whole batch. *)
Inductive value :=
| one (row : Row)
| many (rows : list Row).

(** The collaborators, as the cursor methods use them:
    [c.db.send(resource, id, method, nil, c, c)] is given the receiver as
    request body, result target and error target, and hands it back as the
    transport left it; [json.Marshal(v)] and [json.Unmarshal(b, r)];
    [reflect.ValueOf(r).Elem().Kind()], [None] where [Elem] panics. *)
Class Collaborators := {
  send : option Database -> string -> string -> string -> Cursor -> World ->
         World * Cursor * (Response * option error);
  json_Marshal : value -> list Byte.byte * option error;
  json_Unmarshal : list Byte.byte -> Target -> Target * option error;
  reflect_Elem_Kind : Target -> option Go.Kind
}.
Context {C : Collaborators}.

(** [var c Cursor] *)
Definition zero_Cursor : Cursor :=
  {| db := None; Id := ""; Index := 0; Result := []; More := false;
     Amount := 0;
     Data := {| Extra_Stats :=
                  {| WritesExecuted := 0; WritesIgnored := 0;
                     ScannedFull := 0; ScannedIndex := 0; Filtered := 0;
                     ExecutionTime := 0; Stats_FullCount := 0 |};
                Warnings := [] |};
     Cached := false; Err := false; ErrMsg := ""; Code := 0; max := 0;
     Time := 0 |}.

Definition with_db (d : option Database) (c : Cursor) : Cursor :=
  {| db := d; Id := Id c; Index := Index c; Result := Result c;
     More := More c; Amount := Amount c; Data := Data c; Cached := Cached c;
     Err := Err c; ErrMsg := ErrMsg c; Code := Code c; max := max c;
     Time := Time c |}.

Definition with_Index (i : Go.int) (c : Cursor) : Cursor :=
  {| db := db c; Id := Id c; Index := i; Result := Result c;
     More := More c; Amount := Amount c; Data := Data c; Cached := Cached c;
     Err := Err c; ErrMsg := ErrMsg c; Code := Code c; max := max c;
     Time := Time c |}.

Definition NewCursor (d : option Database) : option Cursor :=
  match d with
  | None => None
  | Some _ => Some (with_db d zero_Cursor)
  end.

(** The state a method runs in: the receiver [c], what the caller's [r]
    refers to, and the transport with its log. *)
Record Frame := {
  self : Cursor;
  out : Target;
  net : Net
}.

Definition on_self (g : Cursor -> Cursor) (f : Frame) : Frame :=
  {| self := g (self f); out := out f; net := net f |}.

Definition db_send (resource id method : string)
  : M Frame (Response * option error) :=
  fun f =>
    let '(w, c, reply) :=
      send (db (self f)) resource id method (self f) (world (net f)) in
    (Returns reply,
     {| self := c; out := out f;
        net := {| world := w;
                  trace := call_send resource id method :: trace (net f) |} |}).

Definition Marshal (v : value) : M Frame (list Byte.byte * option error) :=
  fun f =>
    (Returns (json_Marshal v),
     {| self := self f; out := out f; net := logged call_Marshal (net f) |}).

Definition Unmarshal (b : list Byte.byte) : M Frame (option error) :=
  fun f =>
    let '(r, err) := json_Unmarshal b (out f) in
    (Returns err,
     {| self := self f; out := r; net := logged call_Unmarshal (net f) |}).

(** [c.Result[c.Index]] *)
Definition Result_at_Index : M Frame Row :=
  c <- reads self ;;
  match Go.index (Result c) (Index c) with
  | Some row => ret row
  | None => throw (Go.index_out_of_range (Index c) (Go.len (Result c)))
  end.

Definition HasMore (c : Cursor) : bool := More c.
Definition Count (c : Cursor) : Go.int := Amount c.
Definition FullCount (c : Cursor) : Go.int := Stats_FullCount (Extra_Stats (Data c)).
Definition Error (c : Cursor) : bool := Err c.
Definition ErrCode (c : Cursor) : Go.int := Code c.

Definition Delete : M Frame (bool * option error) :=
  c <- reads self ;;
  if String.eqb (Id c) "" then ret (false, None)
  else
    '(res, err) <- db_send "cursor" (Id c) "DELETE" ;;
    match err with
    | Some e => ret (false, Some e)
    | None =>
        if Status res =? 202 then ret (true, None)
        else if Status res =? 404 then ret (false, None)
        else ret (false, None)
    end.

Definition FetchBatch : M Frame (option error) :=
  r <- reads out ;;
  match reflect_Elem_Kind r with
  | None => throw Go.Elem_of_non_pointer
  | Some kind =>
      if negb (Go.Kind_eqb kind Go.Slice) && negb (Go.Kind_eqb kind Go.Array)
      then ret (Some (errors_New "Container must be Slice of array kind"))
      else
        c <- reads self ;;
        '(b, err) <- Marshal (many (Result c)) ;;
        match err with
        | Some e => ret (Some e)
        | None =>
            err <- Unmarshal b ;;
            match err with
            | Some e => ret (Some e)
            | None =>
                (* fetch next batch *)
                c <- reads self ;;
                if HasMore c then
                  '(res, err) <- db_send "cursor" (Id c) "PUT" ;;
                  if Status res =? 200 then ret None
                  else match err with
                       | Some e => ret (Some e)
                       | None => ret None
                       end
                else ret None
            end
        end
  end.

Definition FetchOne : M Frame bool :=
  c <- reads self ;;
  if Index c >? max c then
    if More c then
      '(res, err) <- db_send "cursor" (Id c) "PUT" ;;
      match err with
      | Some _ => ret false
      | None =>
          if Status res =? 200 then
            modify (on_self (with_Index 0)) ;;; ret true
          else ret false
      end
    else ret false
  else
    row <- Result_at_Index ;;
    '(b, _) <- Marshal (one row) ;;
    err <- Unmarshal b ;;
    modify (on_self (fun c => with_Index (Go.incr (Index c)) c)) ;;;
    match err with
    | Some _ => ret false
    | None => ret true
    end.

(** The tail of [FetchNext], from [json.Marshal(c.Result[c.Index])] on. *)
Definition FetchNext_row : M Frame (bool * option error) :=
  row <- Result_at_Index ;;
  '(b, err) <- Marshal (one row) ;;
  match err with
  | Some e => ret (false, Some e)
  | None =>
      err <- Unmarshal b ;;
      match err with
      | Some e => ret (false, Some e)
      | None =>
          modify (on_self (fun c => with_Index (Go.incr (Index c)) c)) ;;;
          ret (true, None)
      end
  end.

Definition FetchNext : M Frame (bool * option error) :=
  c <- reads self ;;
  if Index c >=? Go.len (Result c) then
    if More c then
      '(res, err) <- db_send "cursor" (Id c) "PUT" ;;
      match err with
      | Some e => ret (false, Some e)
      | None =>
          if Status res =? 200 then
            modify (on_self (with_Index 0)) ;;; FetchNext_row
          else
            ret (false,
                 Some (errors_New
                         ("Cursor batch request returned status code of "
                          ++ Go.Itoa (Status res))))
      end
    else ret (false, None)
  else FetchNext_row.

Definition Next : M Frame bool :=
  c <- reads self ;;
  if Index c =? max c then ret false
  else
    modify (on_self (fun c => with_Index (Go.incr (Index c)) c)) ;;;
    c <- reads self ;;
    if Index c =? max c then ret true else ret false.

End Methods.
End cursor.

(** ** A scripted transport, for concrete runs

    The world is the list of replies the server will give, in order; a
    row is one byte and marshals to itself; a target records the kind
    behind the pointer and the bytes last decoded into it. *)

Module scripted.

Record reply := {
  reply_status : Z;
  reply_error : option string;
  reply_rows : list Byte.byte;
  reply_more : bool
}.

Record target := {
  kind : option Go.Kind;
  held : list Byte.byte
}.

#[global] Instance externals : Externals :=
  {| Row := Byte.byte; Target := target; Database := unit;
     World := list reply; Response := Z; Status := fun z => z;
     Foreign := string |}.

Definition refused : Z * option error :=
  (0, Some (foreign ("connection refused" : Foreign))).

Definition answer (r : reply) : Z * option error :=
  (reply_status r,
   match reply_error r with
   | Some text => Some (foreign (text : Foreign))
   | None => None
   end).

#[global] Instance reader : document.Reader :=
  {| document.get := fun _ _ _ _ (w : World) =>
       match w with
       | [] => ([], refused)
       | r :: w' => (w', answer r)
       end |}.

(** The body of a reply is decoded into the cursor when the transport
    reports no error. *)
Definition received (r : reply) (c : cursor.Cursor) : cursor.Cursor :=
  match reply_error r with
  | Some _ => c
  | None =>
      {| cursor.db := cursor.db c; cursor.Id := cursor.Id c;
         cursor.Index := cursor.Index c; cursor.Result := reply_rows r;
         cursor.More := reply_more r; cursor.Amount := cursor.Amount c;
         cursor.Data := cursor.Data c; cursor.Cached := cursor.Cached c;
         cursor.Err := cursor.Err c; cursor.ErrMsg := cursor.ErrMsg c;
         cursor.Code := reply_status r; cursor.max := cursor.max c;
         cursor.Time := cursor.Time c |}
  end.

#[global] Instance collaborators : cursor.Collaborators :=
  {| cursor.send := fun _ _ _ _ c (w : World) =>
       match w with
       | [] => ([], c, refused)
       | r :: w' => (w', received r c, answer r)
       end;
     cursor.json_Marshal := fun v =>
       match v with
       | cursor.one row => ([row], None)
       | cursor.many rows => (rows, None)
       end;
     cursor.json_Unmarshal := fun b (t : Target) =>
       match kind t with
       | None | Some Go.Invalid =>
           (t, Some (foreign ("json: Unmarshal(nil)" : Foreign)))
       | Some k => ({| kind := Some k; held := b |}, None)
       end;
     cursor.reflect_Elem_Kind := fun t : Target => kind t |}.

Definition db : option Database := Some tt.

Definition offline : Net := {| world := []; trace := [] |}.
Definition online (script : list reply) : Net :=
  {| world := script; trace := [] |}.

(** A cursor bound to a database handle, holding [rows]. *)
Definition holding (rows : list Byte.byte) (more : bool) (m : Go.int)
  : cursor.Cursor :=
  {| cursor.db := db; cursor.Id := "42"; cursor.Index := 0;
     cursor.Result := rows; cursor.More := more;
     cursor.Amount := Go.len rows; cursor.Data := cursor.Data cursor.zero_Cursor;
     cursor.Cached := false; cursor.Err := false; cursor.ErrMsg := "";
     cursor.Code := 201; cursor.max := m; cursor.Time := 0 |}.

Definition status_only (code : Z) : reply :=
  {| reply_status := code; reply_error := None; reply_rows := [];
     reply_more := false |}.

(** Status 200 on the wire, and a body that did not parse. *)
Definition garbled : reply :=
  {| reply_status := 200;
     reply_error := Some "unexpected end of JSON input";
     reply_rows := []; reply_more := false |}.

Definition unsaved : document.Document :=
  {| document.Id := ""; document.Rev := ""; document.Key := "";
     document.Error := false; document.Message := "";
     document.Code := 0; document.Num := 0 |}.

Definition stored : document.Document :=
  {| document.Id := "users/7"; document.Rev := "_W2GDlX"; document.Key := "7";
     document.Error := false; document.Message := "";
     document.Code := 0; document.Num := 0 |}.

Definition three_rows : list Byte.byte := [Byte.x0a; Byte.x0b; Byte.x0c].

Definition into_slice : target := {| kind := Some Go.Slice; held := [] |}.
Definition into_struct : target := {| kind := Some Go.Struct; held := [] |}.

(** A method about to run on such a cursor, with the caller's target
    and the replies the server will give. *)
Definition reading (rows : list Byte.byte) (more : bool) (m : Go.int)
  (r : target) (script : list reply) : cursor.Frame :=
  {| cursor.self := holding rows more m; cursor.out := r;
     cursor.net := online script |}.

(** A cursor that was never opened. *)
Definition unopened : cursor.Frame :=
  {| cursor.self := cursor.zero_Cursor; cursor.out := into_struct;
     cursor.net := offline |}.

(** A stricter codec on the same transport: byte ff does not marshal, and
    bytes holding 00 do not decode. *)
Definition unsupported : option error :=
  Some (foreign ("json: unsupported value" : Foreign)).

Definition mismatch : option error :=
  Some (foreign ("json: cannot unmarshal" : Foreign)).

Definition picky : cursor.Collaborators :=
  {| cursor.send := cursor.send (Collaborators := collaborators);
     cursor.json_Marshal := fun v =>
       match v with
       | cursor.one row =>
           if Byte.eqb row Byte.xff then ([], unsupported) else ([row], None)
       | cursor.many rows =>
           if existsb (Byte.eqb Byte.xff) rows then ([], unsupported)
           else (rows, None)
       end;
     cursor.json_Unmarshal := fun b (t : Target) =>
       match kind t with
       | None | Some Go.Invalid =>
           (t, Some (foreign ("json: Unmarshal(nil)" : Foreign)))
       | Some k =>
           if existsb (Byte.eqb Byte.x00) b
           then ({| kind := Some k; held := [] |}, mismatch)
           else ({| kind := Some k; held := b |}, None)
       end;
     cursor.reflect_Elem_Kind := fun t : Target => kind t |}.

(** A reply with status [code] that carries the next batch. *)
Definition batch (code : Z) (rows : list Byte.byte) (more : bool) : reply :=
  {| reply_status := code; reply_error := None; reply_rows := rows;
     reply_more := more |}.

(** A cursor part of the way through its batch. *)
Definition advanced (i : Go.int) (rows : list Byte.byte) (more : bool)
  (m : Go.int) (r : target) (script : list reply) : cursor.Frame :=
  {| cursor.self := cursor.with_Index i (holding rows more m);
     cursor.out := r; cursor.net := online script |}.

End scripted.

(** ** Vocabulary of the statements *)

(** [ch] occurs in [s]. *)
Fixpoint has_byte (ch : ascii) (s : string) : bool :=
  match s with
  | EmptyString => false
  | String c rest => Ascii.eqb c ch || has_byte ch rest
  end.

(** [id] is [a], a slash, [b], and there is no other slash. *)
Definition two_segments (id a b : string) : Prop :=
  id = a ++ String "/" b /\ has_byte "/" a = false /\ has_byte "/" b = false.

(** The error of [Exist] and [Updated] on a document that lacks a field. *)
Definition precondition {X : Externals} : option error :=
  Some (errors_New "Document must exist or have valid _rev and _id").

(** The transport after one read of [id]. *)
Definition after_get {X : Externals} (id : string) (w : World) (n : Net) : Net :=
  {| world := w; trace := call_get "document" id "GET" :: trace n |}.

(** [k] successive calls of a method, each with what [obs] shows of the
    state it leaves; a panic ends the run. *)
Fixpoint calls {S A O} (m : M S A) (obs : S -> O) (k : nat) (s : S)
  : list (outcome A * O) * S :=
  match k with
  | O => ([], s)
  | Datatypes.S k' =>
      match m s with
      | (Returns a, s') =>
          let (rest, s'') := calls m obs k' s' in
          ((Returns a, obs s') :: rest, s'')
      | (Panics p, s') => ([(Panics p, obs s')], s')
      end
  end.

(** The frame after one [send] for the cursor [id], which left the world
    [w] and the receiver [c]. *)
Definition after_send {X : Externals} (method id : string) (w : World)
  (c : cursor.Cursor) (f : cursor.Frame) : cursor.Frame :=
  {| cursor.self := c; cursor.out := cursor.out f;
     cursor.net := {| world := w;
                      trace := call_send "cursor" id method
                                 :: trace (cursor.net f) |} |}.

(** The frame after one row went through [json.Marshal] and
    [json.Unmarshal], the target now being [t], and [Index] moved on. *)
Definition after_row {X : Externals} (t : Target) (f : cursor.Frame)
  : cursor.Frame :=
  {| cursor.self :=
       cursor.with_Index (Go.incr (cursor.Index (cursor.self f))) (cursor.self f);
     cursor.out := t;
     cursor.net := logged call_Unmarshal (logged call_Marshal (cursor.net f)) |}.

(** The cursor invariant of the data model, and the bound every Go slice
    obeys. *)
Definition in_bounds {X : Externals} (c : cursor.Cursor) : Prop :=
  0 <= cursor.Index c <= Go.len (cursor.Result c).

Definition fits {X : Externals} (c : cursor.Cursor) : Prop :=
  Go.len (cursor.Result c) <= Go.MaxInt.

(** The frame [FetchBatch] leaves after decoding the batch into [t] and
    asking for the next one. *)
Definition after_batch {X : Externals} (t : Target) (w : World) (c : cursor.Cursor)
  (f : cursor.Frame) : cursor.Frame :=
  {| cursor.self := c; cursor.out := t;
     cursor.net :=
       {| world := w;
          trace := call_send "cursor" (cursor.Id (cursor.self f)) "PUT"
                     :: call_Unmarshal :: call_Marshal
                     :: trace (cursor.net f) |} |}.

(** Marshalling [rows] and decoding them into the target one after the
    other: the target after the last row, if no step reports an error. *)
Fixpoint decoded {X : Externals} {C : cursor.Collaborators}
  (rows : list Row) (t : Target) : option Target :=
  match rows with
  | [] => Some t
  | row :: rest =>
      match cursor.json_Marshal (cursor.one row) with
      | (b, None) =>
          match cursor.json_Unmarshal b t with
          | (t', None) => decoded rest t'
          | (_, Some _) => None
          end
      | (_, Some _) => None
      end
  end.

(** What a run of calls shows of the cursor: its [Index]. *)
Definition Index_of {X : Externals} (f : cursor.Frame) : Go.int :=
  cursor.Index (cursor.self f).

(** [n] calls that each returned [v], with [Index] moving from [from + 1]
    up to [from + n]. *)
Definition handed_out {A} (v : A) (from n : nat) : list (outcome A * Go.int) :=
  map (fun i => (Returns v, Z.of_nat i)) (seq (S from) n).


(** The frame after one pass through [json.Marshal] and [json.Unmarshal]
    that left the target [t] and did not touch the cursor. *)
Definition after_decoding {X : Externals} (t : Target) (f : cursor.Frame)
  : cursor.Frame :=
  {| cursor.self := cursor.self f; cursor.out := t;
     cursor.net := logged call_Unmarshal (logged call_Marshal (cursor.net f)) |}.

(** The cursor methods, by name. *)
Inductive method := m_Delete | m_FetchBatch | m_FetchOne | m_FetchNext | m_Next.

(** The frame a method leaves. *)
Definition frame_after {X : Externals} {C : cursor.Collaborators}
  (m : method) (f : cursor.Frame) : cursor.Frame :=
  match m with
  | m_Delete => snd (cursor.Delete f)
  | m_FetchBatch => snd (cursor.FetchBatch f)
  | m_FetchOne => snd (cursor.FetchOne f)
  | m_FetchNext => snd (cursor.FetchNext f)
  | m_Next => snd (cursor.Next f)
  end.

(** * Facts *)

(** ** strings.Split *)

Lemma Split_not_nil s sep : Go.Split s sep <> [].
Proof.
  destruct s as [|ch rest]; simpl; [discriminate|].
  destruct (Ascii.eqb ch sep); [discriminate|].
  destruct (Go.Split rest sep); discriminate.
Qed.

Lemma Split_one sep : forall s a,
  Go.Split s sep = [a] <-> s = a /\ has_byte sep a = false.
Proof.
  induction s as [|ch rest IH]; intros a; simpl.
  - split.
    + intros E; injection E as <-. auto.
    + intros [<- _]. reflexivity.
  - destruct (Ascii.eqb ch sep) eqn:Ech.
    + split.
      * intros E. injection E as _ E. now apply Split_not_nil in E.
      * intros [<- H]. simpl in H. rewrite Ech in H. discriminate.
    + destruct (Go.Split rest sep) as [|seg segs] eqn:Es.
      * now apply Split_not_nil in Es.
      * split.
        -- intros E. injection E as <- ->.
           destruct (proj1 (IH seg) eq_refl) as [-> Hf].
           simpl. rewrite Ech. auto.
        -- intros [<- H]. simpl in H. rewrite Ech in H. simpl in H.
           pose proof (proj2 (IH rest) (conj eq_refl H)) as E.
           injection E as <- <-. reflexivity.
Qed.

Lemma Split_two sep : forall s a b,
  Go.Split s sep = [a; b] <->
  s = a ++ String sep b /\ has_byte sep a = false /\ has_byte sep b = false.
Proof.
  induction s as [|ch rest IH]; intros a b; simpl.
  - split; [discriminate|]. intros [E _]. destruct a; discriminate.
  - destruct (Ascii.eqb_spec ch sep) as [->|Hne].
    + split.
      * intros E. injection E as <- E. apply Split_one in E as [-> Hb].
        simpl. auto.
      * intros (E & Ha & Hb). destruct a as [|c a'].
        -- simpl in E. injection E as ->. 
           destruct (Split_one sep b b) as [_ ->]; auto.
        -- simpl in E. injection E as <- _. simpl in Ha.
           rewrite Ascii.eqb_refl in Ha. discriminate.
    + destruct (Go.Split rest sep) as [|seg segs] eqn:Es.
      * now apply Split_not_nil in Es.
      * split.
        -- intros E. injection E as <- ->.
           destruct (proj1 (IH seg b) eq_refl) as (-> & Ha & Hb). simpl.
           destruct (Ascii.eqb_spec ch sep); [contradiction|]. auto.
        -- intros (E & Ha & Hb). destruct a as [|c a'].
           ++ simpl in E. injection E as -> _. contradiction.
           ++ simpl in E. injection E as <- ->. simpl in Ha.
              destruct (Ascii.eqb_spec ch sep); [contradiction|]. simpl in Ha.
              pose proof (proj2 (IH a' b) (conj eq_refl (conj Ha Hb))) as E.
              injection E as <- <-. reflexivity.
Qed.

(** ** document.go: NewDocument *)

Section NewDocument_facts.

Context {X : Externals}.

Lemma NewDocument_accepts id a b :
  two_segments id a b ->
  document.NewDocument id =
    (Some {| document.Id := id; document.Rev := ""; document.Key := b;
             document.Error := false; document.Message := "";
             document.Code := 0; document.Num := 0 |}, None).
Proof.
  intros H. pose proof H as (E & _ & _).
  apply Split_two in H. unfold document.NewDocument. rewrite H.
  destruct (String.eqb_spec id "") as [E0|_]; [|reflexivity].
  rewrite E0 in E. destruct a; discriminate.
Qed.

Lemma NewDocument_rejects id :
  (forall a b, ~ two_segments id a b) ->
  document.NewDocument id = (None, Some (errors_New "Invalid id")).
Proof.
  intros H. unfold document.NewDocument.
  destruct (Go.Split id "/") as [|a [|b [|c l]]] eqn:E; try reflexivity.
  apply Split_two in E. destruct (H _ _ E).
Qed.

Lemma two_segments_dec id :
  (exists a b, two_segments id a b) \/ (forall a b, ~ two_segments id a b).
Proof.
  destruct (Go.Split id "/") as [|a [|b [|c l]]] eqn:E.
  2, 4: right; intros a' b' H; apply Split_two in H; congruence.
  - now apply Split_not_nil in E.
  - left. exists a, b. now apply Split_two.
Qed.

(** C2, as the code has it: [NewDocument] accepts exactly the ids with one
    slash, that is two slash-free segments, either of which may be empty;
    the document then carries the id and the second segment as its key.
    Every other id is refused with the format error. *)
Theorem NewDocument_one_slash (id : string) :
  (exists a b,
      two_segments id a b /\
      document.NewDocument id =
        (Some {| document.Id := id; document.Rev := ""; document.Key := b;
                 document.Error := false; document.Message := "";
                 document.Code := 0; document.Num := 0 |}, None))
  \/
  ((forall a b, ~ two_segments id a b) /\
   document.NewDocument id = (None, Some (errors_New "Invalid id"))).
Proof.
  destruct (two_segments_dec id) as [(a & b & H)|H].
  - left. exists a, b. split; [assumption|]. now apply NewDocument_accepts with a.
  - right. split; [assumption|]. now apply NewDocument_rejects.
Qed.

End NewDocument_facts.

Example NewDocument_collection_key :
  document.NewDocument "collection/key" =
    (Some {| document.Id := "collection/key"; document.Rev := "";
             document.Key := "key"; document.Error := false;
             document.Message := ""; document.Code := 0;
             document.Num := 0 |}, None).
Proof. reflexivity. Qed.

Example NewDocument_bad :
  document.NewDocument "bad" = (None, Some (errors_New "Invalid id")).
Proof. reflexivity. Qed.

Example NewDocument_empty :
  document.NewDocument "" = (None, Some (errors_New "Invalid id")).
Proof. reflexivity. Qed.

(** C2, as stated, fails: an id with an empty key segment, or an empty
    collection segment, is accepted, although it does not split into two
    non-empty segments. *)
Lemma NewDocument_empty_segment_accepted :
  (document.NewDocument "collection/" =
     (Some {| document.Id := "collection/"; document.Rev := "";
              document.Key := ""; document.Error := false;
              document.Message := ""; document.Code := 0;
              document.Num := 0 |}, None)
   /\ ~ exists a b, two_segments "collection/" a b /\ a <> "" /\ b <> "")
  /\
  (document.NewDocument "/key" =
     (Some {| document.Id := "/key"; document.Rev := "";
              document.Key := "key"; document.Error := false;
              document.Message := ""; document.Code := 0;
              document.Num := 0 |}, None)
   /\ ~ exists a b, two_segments "/key" a b /\ a <> "" /\ b <> "").
Proof.
  split; (split; [reflexivity|]); intros (a & b & H & Ha & Hb);
    apply Split_two in H; injection H as <- <-; congruence.
Qed.

(** ** document.go: Exist and Updated *)

Section Document_facts.

Context {X : Externals} {R : document.Reader}.

Lemma Exist_nil_db d n :
  document.Exist d None n = (Returns (false, Some (errors_New "Invalid db")), n).
Proof. reflexivity. Qed.

Lemma Updated_nil_db d n :
  document.Updated d None n = (Returns (false, Some (errors_New "Invalid db")), n).
Proof. reflexivity. Qed.

Lemma Exist_reads d h n :
  document.Id d <> "" ->
  document.Exist d (Some h) n =
    let '(w, (res, err)) := document.get h "document" (document.Id d) "GET" (world n) in
    (Returns match err with
             | Some e => (false, Some e)
             | None => (negb (Status res =? 404), None)
             end,
     after_get (document.Id d) w n).
Proof.
  intros Hid. unfold document.Exist, document.db_get, bind, ret, after_get.
  destruct (String.eqb_spec (document.Id d) ""); [contradiction|].
  destruct (document.get _ _ _ _ _) as [w [res [e|]]]; [reflexivity|].
  destruct (Status res =? 404); reflexivity.
Qed.

Lemma Updated_reads d h n :
  document.Id d <> "" -> document.Rev d <> "" ->
  document.Updated d (Some h) n =
    let id := document.Id d ++ "?rev=" ++ document.Rev d in
    let '(w, (res, err)) := document.get h "document" id "GET" (world n) in
    (Returns match err with
             | Some e => (false, Some e)
             | None => ((Status res =? 404) || (Status res =? 412), None)
             end,
     after_get id w n).
Proof.
  intros Hid Hrev. unfold document.Updated, document.db_get, bind, ret, after_get.
  destruct (String.eqb_spec (document.Id d) ""); [contradiction|].
  destruct (String.eqb_spec (document.Rev d) ""); [contradiction|]. simpl.
  destruct (document.get _ _ _ _ _) as [w [res [e|]]]; [reflexivity|].
  destruct (Status res =? 404), (Status res =? 412); reflexivity.
Qed.

(** C6: without an id, [Exist] fails before anything is sent; with an id
    and a database handle it issues one GET of the document, and a reply
    with status 404 gives [(false, nil)], a reply with any other status
    [(true, nil)]. *)
Theorem Exist_precondition_then_status d db n :
  (document.Id d = "" ->
   document.Exist d db n =
     (Returns (false, match db with
                      | None => Some (errors_New "Invalid db")
                      | Some _ => precondition
                      end), n))
  /\
  (forall h w res,
      document.Id d <> "" -> db = Some h ->
      document.get h "document" (document.Id d) "GET" (world n) = (w, (res, None)) ->
      snd (document.Exist d db n) = after_get (document.Id d) w n
      /\ (Status res = 404 ->
          fst (document.Exist d db n) = Returns (false, None))
      /\ (Status res <> 404 ->
          fst (document.Exist d db n) = Returns (true, None))).
Proof.
  split.
  - intros E. destruct db; [|reflexivity].
    unfold document.Exist. rewrite E. reflexivity.
  - intros h w res Hid -> Hget. rewrite Exist_reads, Hget by assumption.
    cbn [fst snd]. repeat split.
    + intros ->. reflexivity.
    + intros Hs. apply Z.eqb_neq in Hs. rewrite Hs. reflexivity.
Qed.

(** C7: without an id or without a revision, [Updated] fails before
    anything is sent; with both and a database handle it issues one GET of
    the document at that revision, and a reply with status 404 or 412 gives
    [(true, nil)], a reply with any other status [(false, nil)]. *)
Theorem Updated_precondition_then_status d db n :
  (document.Id d = "" \/ document.Rev d = "" ->
   document.Updated d db n =
     (Returns (false, match db with
                      | None => Some (errors_New "Invalid db")
                      | Some _ => precondition
                      end), n))
  /\
  (forall h w res,
      document.Id d <> "" -> document.Rev d <> "" -> db = Some h ->
      document.get h "document" (document.Id d ++ "?rev=" ++ document.Rev d)
        "GET" (world n) = (w, (res, None)) ->
      snd (document.Updated d db n) =
        after_get (document.Id d ++ "?rev=" ++ document.Rev d) w n
      /\ (Status res = 404 \/ Status res = 412 ->
          fst (document.Updated d db n) = Returns (true, None))
      /\ (Status res <> 404 -> Status res <> 412 ->
          fst (document.Updated d db n) = Returns (false, None))).
Proof.
  split.
  - intros E. destruct db; [|reflexivity]. unfold document.Updated.
    destruct E as [-> | ->]; [reflexivity|].
    rewrite orb_true_r. reflexivity.
  - intros h w res Hid Hrev -> Hget.
    rewrite Updated_reads by assumption. cbv zeta. rewrite Hget.
    cbn [fst snd]. repeat split.
    + intros [-> | ->]; reflexivity.
    + intros H1 H2. apply Z.eqb_neq in H1, H2. rewrite H1, H2. reflexivity.
Qed.

(** A transport error comes back as it is, from either check. *)
Lemma Exist_transport_error d h n w res e :
  document.Id d <> "" ->
  document.get h "document" (document.Id d) "GET" (world n) = (w, (res, Some e)) ->
  fst (document.Exist d (Some h) n) = Returns (false, Some e).
Proof. intros Hid Hget. rewrite Exist_reads, Hget by assumption. reflexivity. Qed.

Lemma Updated_transport_error d h n w res e :
  document.Id d <> "" -> document.Rev d <> "" ->
  document.get h "document" (document.Id d ++ "?rev=" ++ document.Rev d)
    "GET" (world n) = (w, (res, Some e)) ->
  fst (document.Updated d (Some h) n) = Returns (false, Some e).
Proof.
  intros Hid Hrev Hget. rewrite Updated_reads by assumption.
  cbv zeta. rewrite Hget. reflexivity.
Qed.

End Document_facts.

Lemma Exist_runs :
  document.Exist scripted.unsaved scripted.db scripted.offline =
    (Returns (false, precondition), scripted.offline)
  /\ fst (document.Exist scripted.stored scripted.db
            (scripted.online [scripted.status_only 404])) = Returns (false, None)
  /\ fst (document.Exist scripted.stored scripted.db
            (scripted.online [scripted.status_only 500])) = Returns (true, None).
Proof.
  split; [|split].
  - apply (proj1 (Exist_precondition_then_status
                    scripted.unsaved scripted.db scripted.offline)).
    reflexivity.
  - destruct (proj2 (Exist_precondition_then_status scripted.stored scripted.db
                       (scripted.online [scripted.status_only 404]))
                tt [] 404) as (_ & H & _);
      [discriminate | reflexivity | reflexivity | apply H; reflexivity].
  - destruct (proj2 (Exist_precondition_then_status scripted.stored scripted.db
                       (scripted.online [scripted.status_only 500]))
                tt [] 500) as (_ & _ & H);
      [discriminate | reflexivity | reflexivity | apply H; discriminate].
Defined.

Lemma Updated_runs :
  document.Updated scripted.unsaved scripted.db scripted.offline =
    (Returns (false, precondition), scripted.offline)
  /\ fst (document.Updated scripted.stored scripted.db
            (scripted.online [scripted.status_only 412])) = Returns (true, None)
  /\ fst (document.Updated scripted.stored scripted.db
            (scripted.online [scripted.status_only 200])) = Returns (false, None).
Proof.
  split; [|split].
  - apply (proj1 (Updated_precondition_then_status
                    scripted.unsaved scripted.db scripted.offline)).
    left. reflexivity.
  - destruct (proj2 (Updated_precondition_then_status scripted.stored scripted.db
                       (scripted.online [scripted.status_only 412]))
                tt [] 412) as (_ & H & _);
      [discriminate | discriminate | reflexivity | reflexivity
      | apply H; right; reflexivity].
  - destruct (proj2 (Updated_precondition_then_status scripted.stored scripted.db
                       (scripted.online [scripted.status_only 200]))
                tt [] 200) as (_ & _ & H);
      [discriminate | discriminate | reflexivity | reflexivity
      | apply H; discriminate].
Defined.

(** ** cursor.go: Delete and FetchBatch *)

Section Cursor_requests.

Context {X : Externals} {C : cursor.Collaborators}.

Lemma db_send_runs method id (f : cursor.Frame) w c reply :
  cursor.send (cursor.db (cursor.self f)) "cursor" id method (cursor.self f)
    (world (cursor.net f)) = (w, c, reply) ->
  cursor.db_send "cursor" id method f = (Returns reply, after_send method id w c f).
Proof. intros E. unfold cursor.db_send. rewrite E. reflexivity. Qed.

(** C8: a cursor without an id is not deleted and nothing is sent; with an
    id one DELETE of the cursor goes out, and the result is the transport's
    error if there is one, [true] on status 202 and [false] on any other
    status. *)
Theorem Delete_by_status (f : cursor.Frame) :
  (cursor.Id (cursor.self f) = "" ->
   cursor.Delete f = (Returns (false, None), f))
  /\
  (forall w c res err,
      cursor.Id (cursor.self f) <> "" ->
      cursor.send (cursor.db (cursor.self f)) "cursor"
        (cursor.Id (cursor.self f)) "DELETE" (cursor.self f)
        (world (cursor.net f)) = (w, c, (res, err)) ->
      snd (cursor.Delete f) =
        after_send "DELETE" (cursor.Id (cursor.self f)) w c f
      /\ (forall e, err = Some e ->
          fst (cursor.Delete f) = Returns (false, Some e))
      /\ (err = None -> Status res = 202 ->
          fst (cursor.Delete f) = Returns (true, None))
      /\ (err = None -> Status res <> 202 ->
          fst (cursor.Delete f) = Returns (false, None))).
Proof.
  split.
  - intros E. unfold cursor.Delete, bind, reads. rewrite E. reflexivity.
  - intros w c res err Hid Hsend.
    unfold cursor.Delete, bind, reads.
    destruct (String.eqb_spec (cursor.Id (cursor.self f)) ""); [contradiction|].
    rewrite (db_send_runs _ _ _ Hsend).
    destruct err as [e|]; cbn [fst snd ret].
    + repeat split; try discriminate. intros e' [= <-]. reflexivity.
    + destruct (Z.eqb_spec (Status res) 202) as [E|E];
        [|destruct (Status res =? 404)];
        repeat split; try discriminate; try reflexivity; intros; contradiction.
Qed.

(** C9: a target that is not a slice or an array is refused, and the frame
    is left as it was: nothing sent, nothing marshalled or decoded. *)
Theorem FetchBatch_refuses_non_sequence (f : cursor.Frame) (kind : Go.Kind) :
  cursor.reflect_Elem_Kind (cursor.out f) = Some kind ->
  kind <> Go.Slice -> kind <> Go.Array ->
  cursor.FetchBatch f =
    (Returns (Some (errors_New "Container must be Slice of array kind")), f).
Proof.
  intros Hk Hs Ha. unfold cursor.FetchBatch, bind, reads. rewrite Hk.
  destruct kind; try reflexivity; contradiction.
Qed.

Lemma FetchBatch_fetches (f : cursor.Frame) kind b t w c res err :
  cursor.reflect_Elem_Kind (cursor.out f) = Some kind ->
  kind = Go.Slice \/ kind = Go.Array ->
  cursor.json_Marshal (cursor.many (cursor.Result (cursor.self f))) = (b, None) ->
  cursor.json_Unmarshal b (cursor.out f) = (t, None) ->
  cursor.More (cursor.self f) = true ->
  cursor.send (cursor.db (cursor.self f)) "cursor" (cursor.Id (cursor.self f))
    "PUT" (cursor.self f) (world (cursor.net f)) = (w, c, (res, err)) ->
  cursor.FetchBatch f =
    (Returns (if Status res =? 200 then None else err), after_batch t w c f).
Proof.
  intros Hk Hseq Hm Hu Hmore Hsend.
  unfold cursor.FetchBatch, bind, reads. rewrite Hk.
  assert (negb (Go.Kind_eqb kind Go.Slice) && negb (Go.Kind_eqb kind Go.Array)
          = false) as -> by (destruct Hseq as [-> | ->]; reflexivity).
  unfold cursor.Marshal, cursor.Unmarshal. rewrite Hm. cbn [cursor.out].
  rewrite Hu. cbn [cursor.self]. unfold cursor.HasMore. rewrite Hmore.
  unfold cursor.db_send. cbn [cursor.self cursor.net cursor.out world trace logged].
  rewrite Hsend. unfold after_batch.
  destruct (Status res =? 200); [reflexivity|]. destruct err; reflexivity.
Qed.

(** C3, where the code departs from it: when the reply to the next-batch
    request carries status 200 together with a transport error,
    [FetchBatch] reports success and the error is lost. *)
Theorem FetchBatch_loses_transport_error (f : cursor.Frame) kind b t w c res e :
  cursor.reflect_Elem_Kind (cursor.out f) = Some kind ->
  kind = Go.Slice \/ kind = Go.Array ->
  cursor.json_Marshal (cursor.many (cursor.Result (cursor.self f))) = (b, None) ->
  cursor.json_Unmarshal b (cursor.out f) = (t, None) ->
  cursor.More (cursor.self f) = true ->
  cursor.send (cursor.db (cursor.self f)) "cursor" (cursor.Id (cursor.self f))
    "PUT" (cursor.self f) (world (cursor.net f)) = (w, c, (res, Some e)) ->
  Status res = 200 ->
  cursor.FetchBatch f = (Returns None, after_batch t w c f).
Proof.
  intros Hk Hseq Hm Hu Hmore Hsend Hs.
  rewrite (FetchBatch_fetches _ Hk Hseq Hm Hu Hmore Hsend), Hs. reflexivity.
Qed.

(** With any other status the same error does come back. *)
Lemma FetchBatch_transport_error (f : cursor.Frame) kind b t w c res e :
  cursor.reflect_Elem_Kind (cursor.out f) = Some kind ->
  kind = Go.Slice \/ kind = Go.Array ->
  cursor.json_Marshal (cursor.many (cursor.Result (cursor.self f))) = (b, None) ->
  cursor.json_Unmarshal b (cursor.out f) = (t, None) ->
  cursor.More (cursor.self f) = true ->
  cursor.send (cursor.db (cursor.self f)) "cursor" (cursor.Id (cursor.self f))
    "PUT" (cursor.self f) (world (cursor.net f)) = (w, c, (res, Some e)) ->
  Status res <> 200 ->
  cursor.FetchBatch f = (Returns (Some e), after_batch t w c f).
Proof.
  intros Hk Hseq Hm Hu Hmore Hsend Hs.
  rewrite (FetchBatch_fetches _ Hk Hseq Hm Hu Hmore Hsend).
  apply Z.eqb_neq in Hs. rewrite Hs. reflexivity.
Qed.

End Cursor_requests.

(** ** cursor.go: one call of FetchOne, FetchNext, Next *)

Lemma incr_in_range i : 0 <= i < Go.MaxInt -> Go.incr i = i + 1.
Proof.
  unfold Go.incr, Go.wrap, Go.MaxInt. intros H.
  rewrite Z.mod_small; lia.
Qed.

Lemma index_Some_lt {A} (s : list A) i x :
  Go.index s i = Some x -> 0 <= i < Go.len s.
Proof.
  unfold Go.index. destruct (Z.leb_spec 0 i), (Z.ltb_spec i (Go.len s));
    simpl; intros; try discriminate; lia.
Qed.

Lemma index_None_ge {A} (s : list A) i :
  0 <= i -> Go.index s i = None -> Go.len s <= i.
Proof.
  unfold Go.index, Go.len. intros H0.
  destruct (Z.leb_spec 0 i); [|lia].
  destruct (Z.ltb_spec i (Z.of_nat (List.length s))); simpl; [|lia].
  intros E. apply nth_error_None in E. lia.
Qed.

Lemma index_app_middle {A} (pre : list A) x rest :
  Go.index (pre ++ x :: rest) (Go.len pre) = Some x.
Proof.
  unfold Go.index, Go.len. rewrite length_app. simpl.
  destruct (Z.leb_spec 0 (Z.of_nat (List.length pre))); [|lia].
  destruct (Z.ltb_spec (Z.of_nat (List.length pre))
              (Z.of_nat (List.length pre + S (List.length rest)))); [|lia].
  simpl. rewrite Nat2Z.id, nth_error_app2, Nat.sub_diag by lia. reflexivity.
Qed.


Section Cursor_steps.

Context {X : Externals} {C : cursor.Collaborators}.

Lemma decoded_one row t t' :
  decoded [row] t = Some t' ->
  exists b, cursor.json_Marshal (cursor.one row) = (b, None)
            /\ cursor.json_Unmarshal b t = (t', None).
Proof.
  simpl. destruct (cursor.json_Marshal (cursor.one row)) as [b [e|]];
    [discriminate|].
  destruct (cursor.json_Unmarshal b t) as [t1 [e|]] eqn:E; [discriminate|].
  intros [= ->]. eauto.
Qed.

Lemma decoded_cons row rest t t' :
  decoded (row :: rest) t = Some t' ->
  exists t1, decoded [row] t = Some t1 /\ decoded rest t1 = Some t'.
Proof.
  simpl. destruct (cursor.json_Marshal (cursor.one row)) as [b [e|]];
    [discriminate|].
  destruct (cursor.json_Unmarshal b t) as [t1 [e|]]; [discriminate|].
  eauto.
Qed.

Lemma Result_at_Index_panics (f : cursor.Frame) :
  Go.index (cursor.Result (cursor.self f)) (cursor.Index (cursor.self f)) = None ->
  cursor.Result_at_Index f =
    (Panics (Go.index_out_of_range (cursor.Index (cursor.self f))
               (Go.len (cursor.Result (cursor.self f)))), f).
Proof. intros E. unfold cursor.Result_at_Index, bind, reads. rewrite E. reflexivity. Qed.

Lemma FetchNext_row_decodes (f : cursor.Frame) row t :
  Go.index (cursor.Result (cursor.self f)) (cursor.Index (cursor.self f)) = Some row ->
  decoded [row] (cursor.out f) = Some t ->
  cursor.FetchNext_row f = (Returns (true, None), after_row t f).
Proof.
  intros Hi Hd. apply decoded_one in Hd as (b & Hm & Hu).
  unfold cursor.FetchNext_row, cursor.Result_at_Index, bind, reads.
  rewrite Hi. unfold ret, cursor.Marshal. rewrite Hm.
  unfold cursor.Unmarshal. cbn [cursor.out]. rewrite Hu. reflexivity.
Qed.

Lemma FetchNext_in_batch (f : cursor.Frame) row t :
  Go.index (cursor.Result (cursor.self f)) (cursor.Index (cursor.self f)) = Some row ->
  decoded [row] (cursor.out f) = Some t ->
  cursor.FetchNext f = (Returns (true, None), after_row t f).
Proof.
  intros Hi Hd. pose proof (index_Some_lt _ _ Hi) as Hlt.
  unfold cursor.FetchNext, bind at 1, reads.
  destruct (Z.geb_spec (cursor.Index (cursor.self f))
              (Go.len (cursor.Result (cursor.self f)))); [lia|].
  now apply FetchNext_row_decodes with row.
Qed.

Lemma FetchNext_exhausted (f : cursor.Frame) :
  Go.len (cursor.Result (cursor.self f)) <= cursor.Index (cursor.self f) ->
  cursor.More (cursor.self f) = false ->
  cursor.FetchNext f = (Returns (false, None), f).
Proof.
  intros Hge Hm. unfold cursor.FetchNext, bind, reads.
  destruct (Z.geb_spec (cursor.Index (cursor.self f))
              (Go.len (cursor.Result (cursor.self f)))); [|lia].
  rewrite Hm. reflexivity.
Qed.

Lemma FetchOne_in_batch (f : cursor.Frame) row t :
  cursor.Index (cursor.self f) <= cursor.max (cursor.self f) ->
  Go.index (cursor.Result (cursor.self f)) (cursor.Index (cursor.self f)) = Some row ->
  decoded [row] (cursor.out f) = Some t ->
  cursor.FetchOne f = (Returns true, after_row t f).
Proof.
  intros Hle Hi Hd. apply decoded_one in Hd as (b & Hm & Hu).
  unfold cursor.FetchOne, bind at 1, reads.
  destruct (Z.gtb_spec (cursor.Index (cursor.self f))
              (cursor.max (cursor.self f))); [lia|].
  unfold cursor.Result_at_Index, bind, reads.
  rewrite Hi. unfold ret, cursor.Marshal. rewrite Hm.
  unfold cursor.Unmarshal. cbn [cursor.out]. rewrite Hu. reflexivity.
Qed.

Lemma FetchOne_exhausted (f : cursor.Frame) :
  cursor.max (cursor.self f) < cursor.Index (cursor.self f) ->
  cursor.More (cursor.self f) = false ->
  cursor.FetchOne f = (Returns false, f).
Proof.
  intros Hgt Hm. unfold cursor.FetchOne, bind, reads.
  destruct (Z.gtb_spec (cursor.Index (cursor.self f))
              (cursor.max (cursor.self f))); [|lia].
  rewrite Hm. reflexivity.
Qed.


End Cursor_steps.

(** ** cursor.go: FetchNext over a batch *)

Section FetchNext_facts.

Context {X : Externals} {C : cursor.Collaborators}.

Lemma FetchNext_fetches (f : cursor.Frame) w c res err :
  Go.len (cursor.Result (cursor.self f)) <= cursor.Index (cursor.self f) ->
  cursor.More (cursor.self f) = true ->
  cursor.send (cursor.db (cursor.self f)) "cursor" (cursor.Id (cursor.self f))
    "PUT" (cursor.self f) (world (cursor.net f)) = (w, c, (res, err)) ->
  cursor.FetchNext f =
    match err with
    | Some e =>
        (Returns (false, Some e),
         after_send "PUT" (cursor.Id (cursor.self f)) w c f)
    | None =>
        if Status res =? 200 then
          cursor.FetchNext_row
            (after_send "PUT" (cursor.Id (cursor.self f)) w
               (cursor.with_Index 0 c) f)
        else
          (Returns (false,
                    Some (errors_New
                            ("Cursor batch request returned status code of "
                             ++ Go.Itoa (Status res)))),
           after_send "PUT" (cursor.Id (cursor.self f)) w c f)
    end.
Proof.
  intros Hge Hm Hsend. unfold cursor.FetchNext, bind at 1, reads.
  destruct (Z.geb_spec (cursor.Index (cursor.self f))
              (Go.len (cursor.Result (cursor.self f)))); [|lia].
  rewrite Hm. unfold bind at 1. rewrite (db_send_runs _ _ _ Hsend).
  destruct err as [e|]; [reflexivity|].
  destruct (Status res =? 200); reflexivity.
Qed.

(** A transport error on the next-batch request comes back as it is. *)
Lemma FetchNext_transport_error (f : cursor.Frame) w c res e :
  Go.len (cursor.Result (cursor.self f)) <= cursor.Index (cursor.self f) ->
  cursor.More (cursor.self f) = true ->
  cursor.send (cursor.db (cursor.self f)) "cursor" (cursor.Id (cursor.self f))
    "PUT" (cursor.self f) (world (cursor.net f)) = (w, c, (res, Some e)) ->
  fst (cursor.FetchNext f) = Returns (false, Some e).
Proof.
  intros Hge Hm Hsend. rewrite (FetchNext_fetches _ Hge Hm Hsend). reflexivity.
Qed.

(** C5: over a batch of three rows with nothing more on the server, and a
    target the rows decode into, [FetchNext] hands out the three rows in
    order and then reports the end; the only collaborator calls are the
    three marshal/unmarshal pairs, so nothing is sent.  When the batch is
    used up and the server, asked for the next one, answers with a status
    other than 200, the error names that status. *)
Theorem FetchNext_three_rows_then_end (f : cursor.Frame) :
  (forall r0 r1 r2 t0 t1 t2,
      cursor.Result (cursor.self f) = [r0; r1; r2] ->
      cursor.More (cursor.self f) = false ->
      cursor.Index (cursor.self f) = 0 ->
      decoded [r0] (cursor.out f) = Some t0 ->
      decoded [r1] t0 = Some t1 ->
      decoded [r2] t1 = Some t2 ->
      let run := calls cursor.FetchNext cursor.out 4 f in
      fst run = [(Returns (true, None), t0); (Returns (true, None), t1);
                 (Returns (true, None), t2); (Returns (false, None), t2)]
      /\ cursor.Index (cursor.self (snd run)) = 3
      /\ world (cursor.net (snd run)) = world (cursor.net f)
      /\ trace (cursor.net (snd run)) =
           ([call_Unmarshal; call_Marshal; call_Unmarshal; call_Marshal;
             call_Unmarshal; call_Marshal] ++ trace (cursor.net f))%list
      /\ requests (trace (cursor.net (snd run))) =
           requests (trace (cursor.net f)))
  /\
  (forall w c res,
      Go.len (cursor.Result (cursor.self f)) <= cursor.Index (cursor.self f) ->
      cursor.More (cursor.self f) = true ->
      cursor.send (cursor.db (cursor.self f)) "cursor" (cursor.Id (cursor.self f))
        "PUT" (cursor.self f) (world (cursor.net f)) = (w, c, (res, None)) ->
      Status res <> 200 ->
      fst (cursor.FetchNext f) =
        Returns (false,
                 Some (errors_New
                         ("Cursor batch request returned status code of "
                          ++ Go.Itoa (Status res))))).
Proof.
  split.
  - intros r0 r1 r2 t0 t1 t2 Hres Hmore Hidx H0 H1 H2 run. subst run.
    destruct f as [c r n]. cbn [cursor.self cursor.out cursor.net] in *.
    cbn [calls].
    erewrite FetchNext_in_batch with (row := r0) (t := t0);
      [|cbn; rewrite Hres, Hidx; reflexivity | exact H0].
    erewrite FetchNext_in_batch with (row := r1) (t := t1);
      [|cbn; rewrite Hres, Hidx; reflexivity | exact H1].
    erewrite FetchNext_in_batch with (row := r2) (t := t2);
      [|cbn; rewrite Hres, Hidx; reflexivity | exact H2].
    rewrite FetchNext_exhausted;
      [|cbn; rewrite Hres, Hidx; cbv; discriminate | exact Hmore].
    cbn. rewrite Hidx. repeat split; reflexivity.
  - intros w c res Hge Hm Hsend Hs.
    rewrite (FetchNext_fetches _ Hge Hm Hsend).
    apply Z.eqb_neq in Hs. rewrite Hs. reflexivity.
Qed.

End FetchNext_facts.

(** ** cursor.go: FetchOne against FetchNext *)

Lemma calls_S {S A O} (m : M S A) (obs : S -> O) k s :
  fst (calls m obs (Datatypes.S k) s) =
    match m s with
    | (Returns a, s') => (Returns a, obs s') :: fst (calls m obs k s')
    | (Panics p, s') => [(Panics p, obs s')]
    end.
Proof.
  simpl. destruct (m s) as [[a|p] s']; [|reflexivity].
  destruct (calls m obs k s'). reflexivity.
Qed.

Section FetchOne_facts.

Context {X : Externals} {C : cursor.Collaborators}.

(** C4: the cursor [NewCursor] returns has an empty batch, [Index] 0 and
    [max] 0; [FetchOne] on it passes the test [Index > max] and indexes
    the empty batch. *)
Theorem FetchOne_indexes_empty_batch (h : Database) (r : Target) (n : Net) :
  exists c,
    cursor.NewCursor (Some h) = Some c
    /\ cursor.Result c = [] /\ cursor.Index c = 0
    /\ cursor.More c = false /\ cursor.max c = 0
    /\ cursor.FetchOne {| cursor.self := c; cursor.out := r; cursor.net := n |} =
         (Panics (Go.index_out_of_range 0 0),
          {| cursor.self := c; cursor.out := r; cursor.net := n |}).
Proof. eexists. repeat split. Qed.

Lemma after_row_Index t (f : cursor.Frame) (pre : list Row) :
  cursor.Index (cursor.self f) = Go.len pre ->
  Go.len pre < Go.MaxInt ->
  Index_of (after_row t f) = Z.of_nat (S (List.length pre)).
Proof.
  intros Hi Hlt. unfold Index_of, after_row. cbn. rewrite Hi.
  rewrite incr_in_range by (unfold Go.len in *; lia).
  unfold Go.len. lia.
Qed.

Lemma len_app_cons {A} (pre : list A) x rest :
  Go.len (pre ++ x :: rest) = Go.len (pre ++ [x]) + Go.len rest
  /\ Go.len (pre ++ [x]) = Go.len pre + 1.
Proof. unfold Go.len. rewrite !length_app. simpl. lia. Qed.




End FetchOne_facts.





(** ** cursor.go: Index and the bounds of the batch *)

Section Bounds.

Context {X : Externals} {C : cursor.Collaborators}.

Lemma FetchNext_row_keeps_bounds (f : cursor.Frame) :
  in_bounds (cursor.self f) -> fits (cursor.self f) ->
  in_bounds (cursor.self (snd (cursor.FetchNext_row f))).
Proof.
  intros Hin Hfit.
  unfold cursor.FetchNext_row, cursor.Result_at_Index, bind, reads.
  destruct (Go.index _ _) as [row|] eqn:Hi; [|exact Hin].
  unfold ret, cursor.Marshal.
  destruct (cursor.json_Marshal (cursor.one row)) as [b [e|]]; [exact Hin|].
  unfold cursor.Unmarshal. cbn [cursor.out].
  destruct (cursor.json_Unmarshal b (cursor.out f)) as [t [e|]]; [exact Hin|].
  apply index_Some_lt in Hi. unfold in_bounds, fits in *. cbn.
  rewrite incr_in_range; lia.
Qed.

Lemma Next_moves (f : cursor.Frame) :
  cursor.Index (cursor.self f) <> cursor.max (cursor.self f) ->
  cursor.Index (cursor.self (snd (cursor.Next f))) =
    Go.incr (cursor.Index (cursor.self f)).
Proof.
  intros Hne. unfold cursor.Next, bind, reads, modify.
  apply Z.eqb_neq in Hne. rewrite Hne. cbn.
  destruct (Go.incr _ =? _); reflexivity.
Qed.

Lemma Next_stays (f : cursor.Frame) :
  cursor.Index (cursor.self f) = cursor.max (cursor.self f) ->
  cursor.Next f = (Returns false, f).
Proof.
  intros He. unfold cursor.Next, bind, reads.
  apply Z.eqb_eq in He. rewrite He. reflexivity.
Qed.

Lemma Next_keeps_Result (f : cursor.Frame) :
  cursor.Result (cursor.self (snd (cursor.Next f))) = cursor.Result (cursor.self f).
Proof.
  unfold cursor.Next, bind, reads, modify.
  destruct (_ =? _); [reflexivity|]. cbn.
  destruct (Go.incr _ =? _); reflexivity.
Qed.

(** C10, as the code has it.  [FetchNext] keeps [Index] within the batch,
    a cursor the transport hands back after a failed next-batch request
    being taken as within bounds.  [Next] keeps it there exactly when
    [Index] is [max] or is below the length of the batch; otherwise it
    moves [Index] past the end. *)
Theorem FetchNext_and_Next_bounds (f : cursor.Frame) :
  in_bounds (cursor.self f) -> fits (cursor.self f) ->
  ((forall w c res err,
       cursor.send (cursor.db (cursor.self f)) "cursor" (cursor.Id (cursor.self f))
         "PUT" (cursor.self f) (world (cursor.net f)) = (w, c, (res, err)) ->
       fits c /\ (err <> None \/ Status res <> 200 -> in_bounds c)) ->
   in_bounds (cursor.self (snd (cursor.FetchNext f))))
  /\
  (in_bounds (cursor.self (snd (cursor.Next f))) <->
   cursor.Index (cursor.self f) = cursor.max (cursor.self f)
   \/ cursor.Index (cursor.self f) < Go.len (cursor.Result (cursor.self f))).
Proof.
  intros Hin Hfit. split.
  - intros Hsend. unfold cursor.FetchNext, bind at 1, reads.
    destruct (Z.geb_spec (cursor.Index (cursor.self f))
                (Go.len (cursor.Result (cursor.self f)))) as [Hge|Hlt];
      [|now apply FetchNext_row_keeps_bounds].
    destruct (cursor.More (cursor.self f)) eqn:Hmore; [|exact Hin].
    destruct (cursor.send (cursor.db (cursor.self f)) "cursor"
                (cursor.Id (cursor.self f)) "PUT" (cursor.self f)
                (world (cursor.net f))) as [[w c] [res err]] eqn:Es.
    destruct (Hsend _ _ _ _ eq_refl) as [Hfc Hic].
    unfold bind at 1. rewrite (db_send_runs _ _ _ Es).
    destruct err as [e|]; [apply Hic; left; discriminate|].
    destruct (Z.eqb_spec (Status res) 200) as [E|E]; [|apply Hic; now right].
    unfold bind at 1, modify.
    apply FetchNext_row_keeps_bounds; cbn; [|exact Hfc].
    unfold in_bounds, Go.len. cbn. lia.
  - unfold in_bounds, fits in *. rewrite Next_keeps_Result.
    destruct (Z.eq_dec (cursor.Index (cursor.self f)) (cursor.max (cursor.self f)))
      as [He|Hne].
    + rewrite (Next_stays _ He). cbn. tauto.
    + rewrite (Next_moves _ Hne).
      destruct (Z.eq_dec (cursor.Index (cursor.self f))
                  (Go.len (cursor.Result (cursor.self f)))) as [Hl|Hl].
      * split; [|lia]. intros H. exfalso. revert H.
        unfold Go.incr, Go.wrap, Go.MaxInt in *.
        destruct (Z.eq_dec (cursor.Index (cursor.self f)) (2 ^ 63 - 1)) as [Em|Em].
        -- rewrite Em. change ((2 ^ 63 - 1 + 1 + 2 ^ 63) mod 2 ^ 64) with 0. lia.
        -- rewrite Z.mod_small by lia. lia.
      * rewrite incr_in_range by lia. split; [right|]; lia.
Qed.

End Bounds.

Lemma FetchNext_and_Next_bounds_run :
  in_bounds (cursor.self (snd (cursor.FetchNext
     (scripted.reading scripted.three_rows false 3 scripted.into_struct []))))
  /\
  in_bounds (cursor.self (snd (cursor.Next
     (scripted.reading scripted.three_rows false 3 scripted.into_struct [])))).
Proof.
  assert (Hin : in_bounds (cursor.self
            (scripted.reading scripted.three_rows false 3
               scripted.into_struct []))) by now vm_compute.
  assert (Hfit : fits (cursor.self
            (scripted.reading scripted.three_rows false 3
               scripted.into_struct []))) by now vm_compute.
  destruct (FetchNext_and_Next_bounds _ Hin Hfit) as [H1 H2]. split.
  - apply H1. intros w c res err E. injection E as <- <- <- <-. split.
    + now vm_compute.
    + intros _. now vm_compute.
  - apply H2. right. now vm_compute.
Defined.

(** C10, as stated, fails: three calls of [FetchNext] take a cursor over
    three rows, with [max] as [NewCursor] leaves it, to the end of its
    batch, within bounds; the next call of [Next] moves [Index] to 4. *)
Lemma Next_leaves_the_batch :
  let start := scripted.reading scripted.three_rows false 0 scripted.into_struct [] in
  let f := snd (calls cursor.FetchNext Index_of 3 start) in
  in_bounds (cursor.self start)
  /\ in_bounds (cursor.self f)
  /\ cursor.Index (cursor.self (snd (cursor.Next f))) = 4
  /\ Go.len (cursor.Result (cursor.self (snd (cursor.Next f)))) = 3
  /\ ~ in_bounds (cursor.self (snd (cursor.Next f))).
Proof.
  cbv zeta. split; [|split; [|split; [|split]]]; [now vm_compute ..|].
  unfold in_bounds. intros [_ H]. now vm_compute in H.
Qed.

(** ** Concrete runs against the scripted transport *)

Lemma Delete_runs :
  cursor.Delete scripted.unopened = (Returns (false, None), scripted.unopened)
  /\ fst (cursor.Delete
            (scripted.reading [] false 0 scripted.into_struct
               [scripted.status_only 202])) = Returns (true, None)
  /\ fst (cursor.Delete
            (scripted.reading [] false 0 scripted.into_struct
               [scripted.status_only 404])) = Returns (false, None)
  /\ fst (cursor.Delete
            (scripted.reading [] false 0 scripted.into_struct [])) =
       Returns (false, Some (foreign ("connection refused" : Foreign))).
Proof.
  split; [|split; [|split]].
  - apply (proj1 (Delete_by_status scripted.unopened)). reflexivity.
  - destruct (proj2 (Delete_by_status
                       (scripted.reading [] false 0 scripted.into_struct
                          [scripted.status_only 202]))
                _ _ _ _ ltac:(discriminate) eq_refl) as (_ & _ & H & _).
    apply H; reflexivity.
  - destruct (proj2 (Delete_by_status
                       (scripted.reading [] false 0 scripted.into_struct
                          [scripted.status_only 404]))
                _ _ _ _ ltac:(discriminate) eq_refl) as (_ & _ & _ & H).
    apply H; [reflexivity|discriminate].
  - destruct (proj2 (Delete_by_status
                       (scripted.reading [] false 0 scripted.into_struct []))
                _ _ _ _ ltac:(discriminate) eq_refl) as (_ & H & _).
    apply H. reflexivity.
Defined.

Lemma FetchBatch_into_struct_run :
  cursor.FetchBatch
    (scripted.reading scripted.three_rows true 0 scripted.into_struct
       [scripted.status_only 200]) =
    (Returns (Some (errors_New "Container must be Slice of array kind")),
     scripted.reading scripted.three_rows true 0 scripted.into_struct
       [scripted.status_only 200]).
Proof.
  apply (@FetchBatch_refuses_non_sequence _ _
           (scripted.reading scripted.three_rows true 0 scripted.into_struct
              [scripted.status_only 200]) Go.Struct);
    [reflexivity | discriminate | discriminate].
Defined.

Lemma FetchBatch_garbled_run :
  fst (cursor.FetchBatch
         (scripted.reading scripted.three_rows true 0 scripted.into_slice
            [scripted.garbled])) = Returns None.
Proof.
  rewrite (@FetchBatch_loses_transport_error _ _
             (scripted.reading scripted.three_rows true 0 scripted.into_slice
                [scripted.garbled])
             Go.Slice scripted.three_rows
             {| scripted.kind := Some Go.Slice;
                scripted.held := scripted.three_rows |}
             [] (scripted.holding scripted.three_rows true 0) 200
             (@foreign scripted.externals "unexpected end of JSON input"));
    auto.
Defined.

Lemma FetchNext_three_rows_run :
  fst (calls cursor.FetchNext cursor.out 4
         (scripted.reading scripted.three_rows false 0 scripted.into_struct [])) =
    [(Returns (true, None),
      {| scripted.kind := Some Go.Struct; scripted.held := [Byte.x0a] |});
     (Returns (true, None),
      {| scripted.kind := Some Go.Struct; scripted.held := [Byte.x0b] |});
     (Returns (true, None),
      {| scripted.kind := Some Go.Struct; scripted.held := [Byte.x0c] |});
     (Returns (false, None),
      {| scripted.kind := Some Go.Struct; scripted.held := [Byte.x0c] |})]
  /\
  fst (cursor.FetchNext
         (scripted.reading [] true 0 scripted.into_struct
            [scripted.status_only 404])) =
    Returns (false,
             Some (errors_New
                     "Cursor batch request returned status code of 404")).
Proof.
  split.
  - refine (proj1 (proj1 (FetchNext_three_rows_then_end
                            (scripted.reading scripted.three_rows false 0
                               scripted.into_struct []))
                     Byte.x0a Byte.x0b Byte.x0c
                     {| scripted.kind := Some Go.Struct; scripted.held := [Byte.x0a] |}
                     {| scripted.kind := Some Go.Struct; scripted.held := [Byte.x0b] |}
                     {| scripted.kind := Some Go.Struct; scripted.held := [Byte.x0c] |}
                     _ _ _ _ _ _));
      reflexivity.
  - apply (proj2 (FetchNext_three_rows_then_end
                    (scripted.reading [] true 0 scripted.into_struct
                       [scripted.status_only 404]))
             [] (scripted.received (scripted.status_only 404)
                   (scripted.holding [] true 0)) 404);
      [now vm_compute | reflexivity | reflexivity | discriminate].
Defined.

Example Itoa_status : Go.Itoa 404 = "404" /\ Go.Itoa 0 = "0" /\ Go.Itoa (-1) = "-1".
Proof. repeat split. Qed.

(** ** cursor.go: the field max *)

Section Max.

Context {X : Externals} {C : cursor.Collaborators}.

(** The transport decodes a reply into the exported fields of the cursor
    it is given; it leaves [max] alone. *)
Hypothesis send_keeps_max : forall d resource id method c w,
  cursor.max (snd (fst (cursor.send d resource id method c w))) = cursor.max c.

Ltac transport_replies :=
  match goal with
  | |- context [cursor.send ?d ?r ?i ?m ?c ?w] =>
      let H := fresh "Hmax" in
      pose proof (send_keeps_max d r i m c w) as H;
      destruct (cursor.send d r i m c w) as [[? ?] [? ?]];
      cbn [fst snd] in H
  end.

Ltac by_cases :=
  repeat (cbn [cursor.self cursor.out cursor.net world trace fst snd
               cursor.max cursor.with_Index logged];
          first [ transport_replies
                | match goal with
                  | |- context [match ?x with _ => _ end] =>
                      lazymatch x with
                      | context [match _ with _ => _ end] => fail
                      | _ => destruct x
                      end
                  end ]);
  cbn [cursor.self cursor.out cursor.net world trace fst snd
       cursor.max cursor.with_Index logged];
  auto.

(** No method assigns [max]: it is after each call what it was before. *)
Lemma max_is_never_assigned (f : cursor.Frame) :
  cursor.max (cursor.self (snd (cursor.Delete f))) = cursor.max (cursor.self f)
  /\ cursor.max (cursor.self (snd (cursor.FetchBatch f))) = cursor.max (cursor.self f)
  /\ cursor.max (cursor.self (snd (cursor.FetchOne f))) = cursor.max (cursor.self f)
  /\ cursor.max (cursor.self (snd (cursor.FetchNext f))) = cursor.max (cursor.self f)
  /\ cursor.max (cursor.self (snd (cursor.Next f))) = cursor.max (cursor.self f).
Proof.
  destruct f as [c r n].
  unfold cursor.Delete, cursor.FetchBatch, cursor.FetchOne, cursor.FetchNext,
    cursor.FetchNext_row, cursor.Next, cursor.Result_at_Index, cursor.db_send,
    cursor.Marshal, cursor.Unmarshal, cursor.HasMore, bind, reads, modify,
    ret, throw, cursor.on_self.
  repeat split; by_cases.
Qed.

End Max.

(** * Further facts *)

(** ** FetchOne and FetchNext: rows that do not decode, and the refill *)

Section Rows_and_refill.

Context {X : Externals} {C : cursor.Collaborators}.

(** When [Index] is past [max] and the server has more, [FetchOne] asks
    for the next batch once.  It returns true exactly on a reply with
    status 200 and no transport error, and then only resets [Index]: no
    row is marshalled or decoded, the target is as it was.  On any other
    reply it returns false and the cursor is as the transport left it. *)
Theorem FetchOne_refill_decodes_nothing (f : cursor.Frame) w c res err :
  cursor.max (cursor.self f) < cursor.Index (cursor.self f) ->
  cursor.More (cursor.self f) = true ->
  cursor.send (cursor.db (cursor.self f)) "cursor" (cursor.Id (cursor.self f))
    "PUT" (cursor.self f) (world (cursor.net f)) = (w, c, (res, err)) ->
  cursor.FetchOne f =
    match err with
    | None =>
        if Status res =? 200
        then (Returns true,
              after_send "PUT" (cursor.Id (cursor.self f)) w
                (cursor.with_Index 0 c) f)
        else (Returns false,
              after_send "PUT" (cursor.Id (cursor.self f)) w c f)
    | Some _ =>
        (Returns false, after_send "PUT" (cursor.Id (cursor.self f)) w c f)
    end.
Proof.
  intros Hgt Hm Hsend. unfold cursor.FetchOne, bind at 1, reads.
  destruct (Z.gtb_spec (cursor.Index (cursor.self f))
              (cursor.max (cursor.self f))); [|lia].
  rewrite Hm. unfold bind at 1. rewrite (db_send_runs _ _ _ Hsend).
  destruct err as [e|]; [reflexivity|].
  destruct (Status res =? 200); reflexivity.
Qed.

(** Within the batch [FetchOne] looks only at the error of
    [json.Unmarshal]: it returns true exactly when there is none, whatever
    [json.Marshal] reported, and it moves [Index] on in either case, so a
    row that does not decode is skipped and its error is lost. *)
Theorem FetchOne_skips_row_on_error (f : cursor.Frame) row b merr t uerr :
  cursor.Index (cursor.self f) <= cursor.max (cursor.self f) ->
  Go.index (cursor.Result (cursor.self f)) (cursor.Index (cursor.self f)) = Some row ->
  cursor.json_Marshal (cursor.one row) = (b, merr) ->
  cursor.json_Unmarshal b (cursor.out f) = (t, uerr) ->
  cursor.FetchOne f =
    (Returns match uerr with Some _ => false | None => true end,
     after_row t f).
Proof.
  intros Hle Hi Hm Hu. unfold cursor.FetchOne, bind at 1, reads.
  destruct (Z.gtb_spec (cursor.Index (cursor.self f))
              (cursor.max (cursor.self f))); [lia|].
  unfold cursor.Result_at_Index, bind, reads.
  rewrite Hi. unfold ret, cursor.Marshal. rewrite Hm.
  unfold cursor.Unmarshal. cbn [cursor.out]. rewrite Hu.
  destruct uerr; reflexivity.
Qed.

(** [FetchNext] stops at the first error of a row and hands it back:
    an error of [json.Marshal] before anything is decoded, an error of
    [json.Unmarshal] with the target as the decoder left it.  [Index] does
    not move in either case, so the next call meets the same row. *)
Theorem FetchNext_keeps_row_on_error (f : cursor.Frame) row :
  Go.index (cursor.Result (cursor.self f)) (cursor.Index (cursor.self f)) = Some row ->
  (forall b e,
      cursor.json_Marshal (cursor.one row) = (b, Some e) ->
      cursor.FetchNext f =
        (Returns (false, Some e),
         {| cursor.self := cursor.self f; cursor.out := cursor.out f;
            cursor.net := logged call_Marshal (cursor.net f) |}))
  /\
  (forall b t e,
      cursor.json_Marshal (cursor.one row) = (b, None) ->
      cursor.json_Unmarshal b (cursor.out f) = (t, Some e) ->
      cursor.FetchNext f = (Returns (false, Some e), after_decoding t f)).
Proof.
  intros Hi. pose proof (index_Some_lt _ _ Hi) as Hlt.
  assert (Hrow : cursor.FetchNext f = cursor.FetchNext_row f).
  { unfold cursor.FetchNext, bind at 1, reads.
    destruct (Z.geb_spec (cursor.Index (cursor.self f))
                (Go.len (cursor.Result (cursor.self f)))); [lia|reflexivity]. }
  rewrite Hrow.
  unfold cursor.FetchNext_row, cursor.Result_at_Index, bind, reads.
  rewrite Hi. unfold ret, cursor.Marshal, cursor.Unmarshal. split.
  - intros b e Hm. rewrite Hm. reflexivity.
  - intros b t e Hm Hu. rewrite Hm. cbn [cursor.out]. rewrite Hu. reflexivity.
Qed.

(** When the batch is used up and the server has more, a reply with
    status 200 makes [FetchNext] start over at the first row of the batch
    the transport left: that row is decoded in the same call, after one
    PUT, and [Index] is 1 afterwards. *)
Theorem FetchNext_refill_hands_out_first_row (f : cursor.Frame) w c res row t :
  Go.len (cursor.Result (cursor.self f)) <= cursor.Index (cursor.self f) ->
  cursor.More (cursor.self f) = true ->
  cursor.send (cursor.db (cursor.self f)) "cursor" (cursor.Id (cursor.self f))
    "PUT" (cursor.self f) (world (cursor.net f)) = (w, c, (res, None)) ->
  Status res = 200 ->
  Go.index (cursor.Result c) 0 = Some row ->
  decoded [row] (cursor.out f) = Some t ->
  cursor.FetchNext f =
    (Returns (true, None),
     after_row t (after_send "PUT" (cursor.Id (cursor.self f)) w
                    (cursor.with_Index 0 c) f))
  /\ Index_of (snd (cursor.FetchNext f)) = 1.
Proof.
  intros Hge Hm Hsend Hs Hrow Hd.
  rewrite (FetchNext_fetches _ Hge Hm Hsend), Hs. cbn [Z.eqb Pos.eqb].
  rewrite FetchNext_row_decodes with (row := row) (t := t);
    [split; reflexivity | exact Hrow | exact Hd].
Qed.

(** The same reply with an empty batch is not taken as the end:
    [FetchNext] resets [Index] and reads the batch at 0, out of range. *)
Theorem FetchNext_empty_refill_panics (f : cursor.Frame) w c res :
  Go.len (cursor.Result (cursor.self f)) <= cursor.Index (cursor.self f) ->
  cursor.More (cursor.self f) = true ->
  cursor.send (cursor.db (cursor.self f)) "cursor" (cursor.Id (cursor.self f))
    "PUT" (cursor.self f) (world (cursor.net f)) = (w, c, (res, None)) ->
  Status res = 200 ->
  cursor.Result c = [] ->
  cursor.FetchNext f =
    (Panics (Go.index_out_of_range 0 0),
     after_send "PUT" (cursor.Id (cursor.self f)) w (cursor.with_Index 0 c) f).
Proof.
  intros Hge Hm Hsend Hs Hc.
  rewrite (FetchNext_fetches _ Hge Hm Hsend), Hs. cbn [Z.eqb Pos.eqb].
  unfold cursor.FetchNext_row, bind at 1.
  rewrite Result_at_Index_panics; cbn; rewrite Hc; reflexivity.
Qed.

End Rows_and_refill.

(** ** Runs of FetchOne, FetchNext and Next *)

Section Runs.

Context {X : Externals} {C : cursor.Collaborators}.

(** Once [FetchNext] has reported the end it goes on reporting it: any
    number of further calls return [(false, nil)] and leave the cursor, the
    target and the transport as they were. *)
Theorem FetchNext_end_is_stable (f : cursor.Frame) (k : nat) :
  Go.len (cursor.Result (cursor.self f)) <= cursor.Index (cursor.self f) ->
  cursor.More (cursor.self f) = false ->
  calls cursor.FetchNext Index_of k f =
    (repeat (Returns (false, None), cursor.Index (cursor.self f)) k, f).
Proof.
  intros Hge Hm. induction k as [|k IH]; [reflexivity|].
  cbn [calls repeat]. rewrite FetchNext_exhausted by assumption.
  rewrite IH. reflexivity.
Qed.

(** [FetchOne] hands out the rows up to index [max] and no further: over
    a batch whose first [max + 1] rows are [taken], it returns true once
    for each of them and then false, whatever rows are left behind them.
    With [max] the last index of the batch every row is handed out once
    and the end is reported without reading past the batch. *)
Theorem FetchOne_stops_after_max : forall taken pre left (f : cursor.Frame) t,
  cursor.Result (cursor.self f) = (pre ++ taken ++ left)%list ->
  cursor.Index (cursor.self f) = Go.len pre ->
  cursor.max (cursor.self f) = Go.len (pre ++ taken) - 1 ->
  cursor.More (cursor.self f) = false ->
  Go.len (pre ++ taken) <= Go.MaxInt ->
  decoded taken (cursor.out f) = Some t ->
  fst (calls cursor.FetchOne Index_of (S (List.length taken)) f) =
    (handed_out true (List.length pre) (List.length taken)
     ++ [(Returns false, Go.len (pre ++ taken))])%list.
Proof.
  induction taken as [|row rest IH];
    intros pre left f t Hres Hidx Hmax Hmore Hfit Hdec.
  - rewrite app_nil_r in *. rewrite calls_S, FetchOne_exhausted.
    + unfold Index_of. rewrite Hidx. reflexivity.
    + lia.
    + exact Hmore.
  - apply decoded_cons in Hdec as (t1 & Hd1 & Hd).
    destruct (len_app_cons pre row rest) as [L1 L2].
    assert (0 <= Go.len rest) by (unfold Go.len; lia).
    rewrite calls_S.
    rewrite FetchOne_in_batch with (row := row) (t := t1);
      [|lia | rewrite Hres, Hidx; apply index_app_middle | exact Hd1].
    rewrite (after_row_Index t1 f pre) by (auto; lia).
    rewrite (IH (pre ++ [row])%list left _ t);
      cbn [after_row cursor.self cursor.out cursor.with_Index cursor.Result
           cursor.Index cursor.max cursor.More].
    + rewrite <- app_assoc. cbn [List.length app]. unfold handed_out.
      rewrite length_app. cbn [List.length]. rewrite Nat.add_1_r.
      reflexivity.
    + rewrite Hres, <- !app_assoc. reflexivity.
    + rewrite Hidx, incr_in_range by (unfold Go.len in *; lia). lia.
    + rewrite <- app_assoc. exact Hmax.
    + exact Hmore.
    + rewrite <- app_assoc. exact Hfit.
    + exact Hd.
Qed.

(** [Next] touches nothing but [Index], and returns true exactly on the
    call that brings [Index] onto [max]. *)
Theorem Next_true_on_reaching_max (f : cursor.Frame) :
  snd (cursor.Next f) =
    cursor.on_self (cursor.with_Index (Index_of (snd (cursor.Next f)))) f
  /\ (fst (cursor.Next f) = Returns true <->
      cursor.Index (cursor.self f) <> cursor.max (cursor.self f)
      /\ Go.incr (cursor.Index (cursor.self f)) = cursor.max (cursor.self f))
  /\ (fst (cursor.Next f) = Returns true \/ fst (cursor.Next f) = Returns false).
Proof.
  destruct f as [c r n].
  destruct c as [d id i rows more amount data cached err msg code mx tm].
  unfold cursor.Next, bind, reads, modify, ret, Index_of, cursor.on_self,
    cursor.with_Index.
  cbn [cursor.self cursor.out cursor.net cursor.Index cursor.max cursor.db
       cursor.Id cursor.Result cursor.More cursor.Amount cursor.Data
       cursor.Cached cursor.Err cursor.ErrMsg cursor.Code cursor.Time].
  destruct (Z.eqb_spec i mx) as [E|E];
    cbn [fst snd cursor.self cursor.Index cursor.max].
  - split; [reflexivity|]. split; [|right; reflexivity].
    split; [discriminate | intros [H _]; contradiction].
  - destruct (Z.eqb_spec (Go.incr i) mx) as [E'|E'];
      cbn [fst snd cursor.self cursor.Index cursor.max].
    + split; [reflexivity|]. split; [|left; reflexivity]. split; auto.
    + split; [reflexivity|]. split; [|right; reflexivity].
      split; [discriminate | intros [_ H]; contradiction].
Qed.

(** From below [max], [Next] takes [max - Index] calls to reach it: all
    return false but the last, which returns true. *)
Theorem Next_counts_up_to_max : forall (k : nat) (f : cursor.Frame),
  cursor.max (cursor.self f) = cursor.Index (cursor.self f) + Z.of_nat (S k) ->
  Go.MinInt <= cursor.Index (cursor.self f) ->
  cursor.max (cursor.self f) <= Go.MaxInt ->
  fst (calls cursor.Next Index_of (S k) f) =
    (map (fun j => (Returns false, cursor.Index (cursor.self f) + Z.of_nat j))
         (seq 1 k)
     ++ [(Returns true, cursor.max (cursor.self f))])%list.
Proof.
  assert (Hincr : forall i, Go.MinInt <= i < Go.MaxInt -> Go.incr i = i + 1).
  { intros i. unfold Go.incr, Go.wrap, Go.MinInt, Go.MaxInt. intros Hi.
    rewrite Z.mod_small; lia. }
  assert (Hstep : forall f : cursor.Frame,
             cursor.Index (cursor.self f) <> cursor.max (cursor.self f) ->
             cursor.Next f =
               (Returns (Go.incr (cursor.Index (cursor.self f))
                         =? cursor.max (cursor.self f)),
                cursor.on_self
                  (cursor.with_Index (Go.incr (cursor.Index (cursor.self f)))) f)).
  { intros f Hne. unfold cursor.Next, bind, reads, modify, ret.
    apply Z.eqb_neq in Hne. rewrite Hne. cbn.
    destruct (Go.incr _ =? _); reflexivity. }
  induction k as [|k IH]; intros f Hmax Hlo Hhi.
  - rewrite calls_S, Hstep by lia. rewrite Hincr by lia.
    destruct (Z.eqb_spec (cursor.Index (cursor.self f) + 1)
                (cursor.max (cursor.self f))); [|lia].
    cbn. unfold Index_of. cbn. rewrite e. reflexivity.
  - rewrite calls_S, Hstep by lia. rewrite Hincr by lia.
    destruct (Z.eqb_spec (cursor.Index (cursor.self f) + 1)
                (cursor.max (cursor.self f))); [lia|].
    rewrite IH; cbn [cursor.on_self cursor.self cursor.with_Index
                     cursor.Index cursor.max]; try lia.
    unfold Index_of. cbn [cursor.on_self cursor.self cursor.with_Index
                          cursor.Index].
    cbn [seq map app]. rewrite <- seq_shift with (start := 1%nat), map_map.
    f_equal. f_equal.
    apply map_ext. intros j. f_equal. lia.
Qed.

End Runs.

(** ** FetchBatch, and what goes over the wire *)

Section Batches_and_requests.

Context {X : Externals} {C : cursor.Collaborators}.

(** With nothing more on the server [FetchBatch] decodes the whole batch
    into the target and sends nothing.  It neither reads nor moves [Index]:
    rows already handed out one by one are decoded again. *)
Theorem FetchBatch_decodes_whole_batch (f : cursor.Frame) kind b t :
  cursor.reflect_Elem_Kind (cursor.out f) = Some kind ->
  kind = Go.Slice \/ kind = Go.Array ->
  cursor.json_Marshal (cursor.many (cursor.Result (cursor.self f))) = (b, None) ->
  cursor.json_Unmarshal b (cursor.out f) = (t, None) ->
  cursor.More (cursor.self f) = false ->
  cursor.FetchBatch f = (Returns None, after_decoding t f).
Proof.
  intros Hk Hseq Hm Hu Hmore.
  unfold cursor.FetchBatch, bind, reads. rewrite Hk.
  assert (negb (Go.Kind_eqb kind Go.Slice) && negb (Go.Kind_eqb kind Go.Array)
          = false) as -> by (destruct Hseq as [-> | ->]; reflexivity).
  unfold cursor.Marshal, cursor.Unmarshal. rewrite Hm. cbn [cursor.out].
  rewrite Hu. cbn [cursor.self]. unfold cursor.HasMore. rewrite Hmore.
  reflexivity.
Qed.

(** An error of [json.Marshal] or of [json.Unmarshal] ends [FetchBatch]
    with that error before the next batch is asked for, also when the
    server has more: the cursor still holds the batch that did not
    decode. *)
Theorem FetchBatch_error_before_refill (f : cursor.Frame) kind :
  cursor.reflect_Elem_Kind (cursor.out f) = Some kind ->
  kind = Go.Slice \/ kind = Go.Array ->
  (forall b e,
      cursor.json_Marshal (cursor.many (cursor.Result (cursor.self f))) = (b, Some e) ->
      cursor.FetchBatch f =
        (Returns (Some e),
         {| cursor.self := cursor.self f; cursor.out := cursor.out f;
            cursor.net := logged call_Marshal (cursor.net f) |}))
  /\
  (forall b t e,
      cursor.json_Marshal (cursor.many (cursor.Result (cursor.self f))) = (b, None) ->
      cursor.json_Unmarshal b (cursor.out f) = (t, Some e) ->
      cursor.FetchBatch f = (Returns (Some e), after_decoding t f)).
Proof.
  intros Hk Hseq.
  unfold cursor.FetchBatch, bind, reads. rewrite Hk.
  assert (negb (Go.Kind_eqb kind Go.Slice) && negb (Go.Kind_eqb kind Go.Array)
          = false) as -> by (destruct Hseq as [-> | ->]; reflexivity).
  unfold cursor.Marshal, cursor.Unmarshal. split.
  - intros b e Hm. rewrite Hm. reflexivity.
  - intros b t e Hm Hu. rewrite Hm. cbn [cursor.out]. rewrite Hu. reflexivity.
Qed.

(** After [FetchBatch] has fetched the next batch the target still holds
    the batch it decoded before, and [Index] is what the transport left:
    unlike [FetchOne] and [FetchNext], [FetchBatch] does not reset it. *)
Theorem FetchBatch_refill_keeps_Index (f : cursor.Frame) kind b t w c res :
  cursor.reflect_Elem_Kind (cursor.out f) = Some kind ->
  kind = Go.Slice \/ kind = Go.Array ->
  cursor.json_Marshal (cursor.many (cursor.Result (cursor.self f))) = (b, None) ->
  cursor.json_Unmarshal b (cursor.out f) = (t, None) ->
  cursor.More (cursor.self f) = true ->
  cursor.send (cursor.db (cursor.self f)) "cursor" (cursor.Id (cursor.self f))
    "PUT" (cursor.self f) (world (cursor.net f)) = (w, c, (res, None)) ->
  fst (cursor.FetchBatch f) = Returns None
  /\ cursor.out (snd (cursor.FetchBatch f)) = t
  /\ cursor.self (snd (cursor.FetchBatch f)) = c
  /\ Index_of (snd (cursor.FetchBatch f)) = cursor.Index c.
Proof.
  intros Hk Hseq Hm Hu Hmore Hsend.
  rewrite (FetchBatch_fetches _ Hk Hseq Hm Hu Hmore Hsend).
  destruct (Status res =? 200); repeat split; reflexivity.
Qed.

Ltac one_case :=
  cbn [cursor.self cursor.out cursor.net world trace fst snd logged
       cursor.with_Index];
  match goal with
  | |- context [cursor.send ?d ?r ?i ?m ?c ?w] =>
      destruct (cursor.send d r i m c w) as [[? ?] [? ?]]
  | |- context [match ?x with _ => _ end] =>
      lazymatch x with
      | context [match _ with _ => _ end] => fail
      | _ => destruct x
      end
  end.

(** No method sends more than one request in a call, none takes anything
    off the log, and [Next] sends nothing at all. *)
Theorem one_request_at_most (m : method) (f : cursor.Frame) :
  let before := requests (trace (cursor.net f)) in
  let after := requests (trace (cursor.net (frame_after m f))) in
  (after = before
   \/ exists method, after = call_send "cursor" (cursor.Id (cursor.self f)) method :: before)
  /\ (m = m_Next -> cursor.net (frame_after m f) = cursor.net f).
Proof.
  destruct f as [c r n]. cbv zeta.
  destruct m; unfold frame_after;
    unfold cursor.Delete, cursor.FetchBatch, cursor.FetchOne, cursor.FetchNext,
      cursor.FetchNext_row, cursor.Next, cursor.Result_at_Index, cursor.db_send,
      cursor.Marshal, cursor.Unmarshal, cursor.HasMore, bind, reads, modify,
      ret, throw, cursor.on_self;
    (split; [|intros Hm; try discriminate Hm]);
    repeat one_case;
    cbn [cursor.self cursor.out cursor.net world trace fst snd logged
         cursor.with_Index requests filter is_request];
    first [ reflexivity | left; reflexivity | right; eexists; reflexivity ].
Qed.

End Batches_and_requests.

(** ** A cursor as NewCursor returns it *)

Section Fresh_cursor.

Context {X : Externals} {C : cursor.Collaborators}.

(** [NewCursor] gives no cursor without a database handle.  The cursor it
    gives with one is at its end and has no id: [FetchNext] reports the
    end, [Next] returns false and [Delete] returns [(false, nil)], each
    leaving the cursor as it was and sending nothing. *)
Theorem new_cursor_is_at_its_end (h : Database) (r : Target) (n : Net) :
  cursor.NewCursor None = None
  /\ exists c,
       cursor.NewCursor (Some h) = Some c
       /\ cursor.db c = Some h
       /\ let f := {| cursor.self := c; cursor.out := r; cursor.net := n |} in
          cursor.FetchNext f = (Returns (false, None), f)
          /\ cursor.Next f = (Returns false, f)
          /\ cursor.Delete f = (Returns (false, None), f).
Proof. split; [reflexivity|]. eexists. repeat split. Qed.

End Fresh_cursor.

(** ** Documents from NewDocument *)

Section Fresh_document.

Context {X : Externals} {R : document.Reader}.

Lemma NewDocument_fields id d :
  document.NewDocument id = (Some d, None) ->
  document.Id d = id /\ id <> "" /\ document.Rev d = ""
  /\ exists a, two_segments id a (document.Key d).
Proof.
  intros H. destruct (two_segments_dec id) as [(a & b & Hab)|Hno].
  - rewrite (NewDocument_accepts Hab) in H. injection H as <-. cbn.
    repeat split; [|now exists a].
    intros ->. destruct Hab as [E _]. destruct a; discriminate.
  - rewrite (NewDocument_rejects Hno) in H. discriminate.
Qed.

(** The check for the empty id in [NewDocument] never fires: the empty
    string has already failed the split.  So "Invalid empty id" is never
    returned, and [NewDocument] returns a document exactly when it returns
    no error. *)
Theorem NewDocument_never_reports_empty_id (id : string) :
  snd (document.NewDocument id) <> Some (errors_New "Invalid empty id")
  /\ (fst (document.NewDocument id) = None <->
      snd (document.NewDocument id) <> None).
Proof.
  destruct (two_segments_dec id) as [(a & b & Hab)|Hno].
  - rewrite (NewDocument_accepts Hab). cbn. split; [discriminate|].
    split; [discriminate | intros H; now destruct H].
  - rewrite (NewDocument_rejects Hno). cbn. split; [discriminate|].
    split; [discriminate | reflexivity].
Qed.

(** A document from [NewDocument] passes the precondition of [Exist]:
    given a database handle, [Exist] sends one GET for exactly the id the
    document was made from. *)
Theorem NewDocument_then_Exist_reads id d (h : Database) (n : Net) :
  document.NewDocument id = (Some d, None) ->
  snd (document.Exist d (Some h) n) =
    after_get id (fst (document.get h "document" id "GET" (world n))) n.
Proof.
  intros H. apply NewDocument_fields in H as (Hid & Hne & _).
  rewrite Exist_reads by congruence. rewrite Hid.
  destruct (document.get _ _ _ _ _) as [w [res err]]. reflexivity.
Qed.

(** A document from [NewDocument] has no revision, so [Updated] refuses
    it and sends nothing, until [SetRev] has given it a revision; then
    [Updated] sends one GET for the id with that revision as its query. *)
Theorem NewDocument_then_Updated_needs_SetRev id d rev (h : Database) (n : Net) :
  document.NewDocument id = (Some d, None) ->
  document.Updated d (Some h) n = (Returns (false, precondition), n)
  /\ (rev <> "" ->
      snd (document.SetRev d rev) = None
      /\ snd (document.Updated (fst (document.SetRev d rev)) (Some h) n) =
           after_get (id ++ "?rev=" ++ rev)
             (fst (document.get h "document" (id ++ "?rev=" ++ rev) "GET"
                     (world n))) n).
Proof.
  intros H. apply NewDocument_fields in H as (Hid & Hne & Hrev & _). split.
  - unfold document.Updated. rewrite Hrev. rewrite orb_true_r. reflexivity.
  - intros Hr. split; [reflexivity|].
    rewrite Updated_reads; cbn [document.SetRev fst document.Id document.Rev];
      [|congruence|assumption].
    rewrite Hid. cbv zeta.
    destruct (document.get _ _ _ _ _) as [w [res err]]. reflexivity.
Qed.

(** [SetKey] changes the key and nothing else.  The id keeps its own key
    segment, and [Exist] and [Updated], which address the document by its
    id, behave after [SetKey] as before. *)
Theorem SetKey_leaves_the_id d key db (n : Net) :
  snd (document.SetKey d key) = None
  /\ document.Key (fst (document.SetKey d key)) = key
  /\ document.Id (fst (document.SetKey d key)) = document.Id d
  /\ document.Rev (fst (document.SetKey d key)) = document.Rev d
  /\ document.Exist (fst (document.SetKey d key)) db n = document.Exist d db n
  /\ document.Updated (fst (document.SetKey d key)) db n = document.Updated d db n.
Proof. repeat split. Qed.

End Fresh_document.

(** ** Further runs against the scripted transport *)

Lemma FetchOne_refill_run :
  let f := scripted.advanced 1 [] true 0 scripted.into_struct
             [scripted.batch 200 scripted.three_rows false] in
  fst (cursor.FetchOne f) = Returns true
  /\ cursor.out (snd (cursor.FetchOne f)) = scripted.into_struct
  /\ Index_of (snd (cursor.FetchOne f)) = 0
  /\ cursor.Result (cursor.self (snd (cursor.FetchOne f))) = scripted.three_rows.
Proof.
  cbv zeta.
  rewrite (@FetchOne_refill_decodes_nothing scripted.externals scripted.collaborators
             (scripted.advanced 1 [] true 0 scripted.into_struct
                [scripted.batch 200 scripted.three_rows false])
             []
             (scripted.received (scripted.batch 200 scripted.three_rows false)
                (cursor.with_Index 1 (scripted.holding [] true 0)))
             200 None);
    [repeat split | now vm_compute | reflexivity | reflexivity].
Defined.

Lemma FetchOne_skips_row_run :
  let f := scripted.reading [Byte.x00; Byte.x0b] false 1 scripted.into_struct [] in
  fst (cursor.FetchOne (C := scripted.picky) f) = Returns false
  /\ Index_of (snd (cursor.FetchOne (C := scripted.picky) f)) = 1.
Proof.
  cbv zeta.
  rewrite (@FetchOne_skips_row_on_error scripted.externals scripted.picky
             (scripted.reading [Byte.x00; Byte.x0b] false 1 scripted.into_struct [])
             Byte.x00 [Byte.x00] None
             {| scripted.kind := Some Go.Struct; scripted.held := [] |}
             scripted.mismatch);
    [split; reflexivity | now vm_compute | reflexivity | reflexivity | reflexivity].
Defined.

Lemma FetchNext_keeps_row_run :
  cursor.FetchNext (C := scripted.picky)
    (scripted.reading [Byte.xff] false 0 scripted.into_struct []) =
    (Returns (false, scripted.unsupported),
     {| cursor.self := scripted.holding [Byte.xff] false 0;
        cursor.out := scripted.into_struct;
        cursor.net := logged call_Marshal scripted.offline |})
  /\
  cursor.FetchNext (C := scripted.picky)
    (scripted.reading [Byte.x00] false 0 scripted.into_struct []) =
    (Returns (false, scripted.mismatch),
     after_decoding {| scripted.kind := Some Go.Struct; scripted.held := [] |}
       (scripted.reading [Byte.x00] false 0 scripted.into_struct [])).
Proof.
  split.
  - apply (proj1 (@FetchNext_keeps_row_on_error scripted.externals scripted.picky
                    (scripted.reading [Byte.xff] false 0 scripted.into_struct [])
                    Byte.xff eq_refl)
             []).
    reflexivity.
  - apply (proj2 (@FetchNext_keeps_row_on_error scripted.externals scripted.picky
                    (scripted.reading [Byte.x00] false 0 scripted.into_struct [])
                    Byte.x00 eq_refl)
             [Byte.x00]); reflexivity.
Defined.

Lemma FetchNext_refill_run :
  let f := scripted.advanced 3 scripted.three_rows true 3 scripted.into_struct
             [scripted.batch 200 [Byte.x0d; Byte.x0e] false] in
  fst (cursor.FetchNext f) = Returns (true, None)
  /\ cursor.out (snd (cursor.FetchNext f)) =
       {| scripted.kind := Some Go.Struct; scripted.held := [Byte.x0d] |}
  /\ Index_of (snd (cursor.FetchNext f)) = 1.
Proof.
  cbv zeta.
  destruct (@FetchNext_refill_hands_out_first_row scripted.externals scripted.collaborators
              (scripted.advanced 3 scripted.three_rows true 3 scripted.into_struct
                 [scripted.batch 200 [Byte.x0d; Byte.x0e] false])
              []
              (scripted.received (scripted.batch 200 [Byte.x0d; Byte.x0e] false)
                 (cursor.with_Index 3 (scripted.holding scripted.three_rows true 3)))
              200 Byte.x0d
              {| scripted.kind := Some Go.Struct; scripted.held := [Byte.x0d] |})
    as [H1 H2];
    [now vm_compute | reflexivity | reflexivity | reflexivity | reflexivity
    | reflexivity | ].
  rewrite H1. repeat split.
Defined.

Lemma FetchNext_empty_refill_run :
  fst (cursor.FetchNext
         (scripted.advanced 3 scripted.three_rows true 3 scripted.into_struct
            [scripted.batch 200 [] false])) =
    Panics (Go.index_out_of_range 0 0).
Proof.
  rewrite (@FetchNext_empty_refill_panics scripted.externals scripted.collaborators
             (scripted.advanced 3 scripted.three_rows true 3 scripted.into_struct
                [scripted.batch 200 [] false])
             []
             (scripted.received (scripted.batch 200 [] false)
                (cursor.with_Index 3 (scripted.holding scripted.three_rows true 3)))
             200);
    [reflexivity | now vm_compute | reflexivity | reflexivity | reflexivity
    | reflexivity].
Defined.

Lemma FetchNext_end_run :
  let f := scripted.advanced 3 scripted.three_rows false 3 scripted.into_struct [] in
  calls cursor.FetchNext Index_of 2 f =
    ([(Returns (false, None), 3); (Returns (false, None), 3)], f).
Proof.
  cbv zeta.
  apply (@FetchNext_end_is_stable scripted.externals scripted.collaborators
           (scripted.advanced 3 scripted.three_rows false 3 scripted.into_struct [])
           2%nat); [now vm_compute | reflexivity].
Defined.

Lemma FetchOne_last_index_run :
  fst (calls cursor.FetchOne Index_of 4
         (scripted.reading scripted.three_rows false 2 scripted.into_struct [])) =
    [(Returns true, 1); (Returns true, 2); (Returns true, 3); (Returns false, 3)]
  /\
  fst (calls cursor.FetchOne Index_of 2
         (scripted.reading scripted.three_rows false 0 scripted.into_struct [])) =
    [(Returns true, 1); (Returns false, 1)].
Proof.
  split.
  - apply (@FetchOne_stops_after_max scripted.externals scripted.collaborators scripted.three_rows [] []
             (scripted.reading scripted.three_rows false 2 scripted.into_struct [])
             {| scripted.kind := Some Go.Struct; scripted.held := [Byte.x0c] |});
      try reflexivity; now vm_compute.
  - apply (@FetchOne_stops_after_max scripted.externals scripted.collaborators [Byte.x0a] [] [Byte.x0b; Byte.x0c]
             (scripted.reading scripted.three_rows false 0 scripted.into_struct [])
             {| scripted.kind := Some Go.Struct; scripted.held := [Byte.x0a] |});
      try reflexivity; now vm_compute.
Defined.

Lemma Next_counts_run :
  fst (calls cursor.Next Index_of 3
         (scripted.reading scripted.three_rows false 3 scripted.into_struct [])) =
    [(Returns false, 1); (Returns false, 2); (Returns true, 3)].
Proof.
  apply (@Next_counts_up_to_max scripted.externals 2%nat
           (scripted.reading scripted.three_rows false 3 scripted.into_struct []));
    [reflexivity | now vm_compute | now vm_compute].
Defined.

Lemma FetchBatch_whole_batch_run :
  let f := scripted.advanced 2 scripted.three_rows false 3 scripted.into_slice [] in
  cursor.FetchBatch f =
    (Returns None,
     after_decoding
       {| scripted.kind := Some Go.Slice; scripted.held := scripted.three_rows |} f)
  /\ Index_of (snd (cursor.FetchBatch f)) = 2.
Proof.
  cbv zeta.
  rewrite (@FetchBatch_decodes_whole_batch scripted.externals scripted.collaborators
             (scripted.advanced 2 scripted.three_rows false 3 scripted.into_slice [])
             Go.Slice scripted.three_rows
             {| scripted.kind := Some Go.Slice;
                scripted.held := scripted.three_rows |});
    [split; reflexivity | reflexivity | left; reflexivity | reflexivity
    | reflexivity | reflexivity].
Defined.

Lemma FetchBatch_error_run :
  cursor.FetchBatch (C := scripted.picky)
    (scripted.reading [Byte.x0a; Byte.xff] true 0 scripted.into_slice
       [scripted.status_only 200]) =
    (Returns scripted.unsupported,
     {| cursor.self := scripted.holding [Byte.x0a; Byte.xff] true 0;
        cursor.out := scripted.into_slice;
        cursor.net := logged call_Marshal
                        (scripted.online [scripted.status_only 200]) |})
  /\
  cursor.FetchBatch (C := scripted.picky)
    (scripted.reading [Byte.x0a; Byte.x00] true 0 scripted.into_slice
       [scripted.status_only 200]) =
    (Returns scripted.mismatch,
     after_decoding {| scripted.kind := Some Go.Slice; scripted.held := [] |}
       (scripted.reading [Byte.x0a; Byte.x00] true 0 scripted.into_slice
          [scripted.status_only 200])).
Proof.
  split.
  - apply (proj1 (@FetchBatch_error_before_refill scripted.externals scripted.picky
                    (scripted.reading [Byte.x0a; Byte.xff] true 0
                       scripted.into_slice [scripted.status_only 200])
                    Go.Slice eq_refl (or_introl eq_refl))
             []).
    reflexivity.
  - apply (proj2 (@FetchBatch_error_before_refill scripted.externals scripted.picky
                    (scripted.reading [Byte.x0a; Byte.x00] true 0
                       scripted.into_slice [scripted.status_only 200])
                    Go.Slice eq_refl (or_introl eq_refl))
             [Byte.x0a; Byte.x00]); reflexivity.
Defined.

Lemma FetchBatch_refill_run :
  let f := scripted.advanced 3 scripted.three_rows true 3 scripted.into_slice
             [scripted.batch 200 [Byte.x0d] false] in
  fst (cursor.FetchBatch f) = Returns None
  /\ cursor.out (snd (cursor.FetchBatch f)) =
       {| scripted.kind := Some Go.Slice; scripted.held := scripted.three_rows |}
  /\ cursor.Result (cursor.self (snd (cursor.FetchBatch f))) = [Byte.x0d]
  /\ Index_of (snd (cursor.FetchBatch f)) = 3.
Proof.
  cbv zeta.
  destruct (@FetchBatch_refill_keeps_Index scripted.externals scripted.collaborators
              (scripted.advanced 3 scripted.three_rows true 3 scripted.into_slice
                 [scripted.batch 200 [Byte.x0d] false])
              Go.Slice scripted.three_rows
              {| scripted.kind := Some Go.Slice;
                 scripted.held := scripted.three_rows |}
              []
              (scripted.received (scripted.batch 200 [Byte.x0d] false)
                 (cursor.with_Index 3 (scripted.holding scripted.three_rows true 3)))
              200)
    as (H1 & H2 & H3 & H4);
    [reflexivity | left; reflexivity | reflexivity | reflexivity | reflexivity
    | reflexivity | ].
  rewrite H1, H2, H3, H4. repeat split.
Defined.

Lemma Next_sends_nothing_run :
  cursor.net (snd (cursor.Next
     (scripted.reading scripted.three_rows false 3 scripted.into_struct []))) =
  scripted.offline.
Proof.
  apply (proj2 (@one_request_at_most scripted.externals scripted.collaborators
                  m_Next
                  (scripted.reading scripted.three_rows false 3
                     scripted.into_struct []))).
  reflexivity.
Defined.

Lemma Exist_refused_run :
  fst (document.Exist scripted.stored scripted.db scripted.offline) =
    Returns (false, snd scripted.refused).
Proof.
  apply (@Exist_transport_error scripted.externals scripted.reader
           scripted.stored tt scripted.offline [] 0);
    [discriminate | reflexivity].
Defined.

Lemma Updated_refused_run :
  fst (document.Updated scripted.stored scripted.db scripted.offline) =
    Returns (false, snd scripted.refused).
Proof.
  apply (@Updated_transport_error scripted.externals scripted.reader
           scripted.stored tt scripted.offline [] 0);
    [discriminate | discriminate | reflexivity].
Defined.

Lemma FetchNext_refused_run :
  fst (cursor.FetchNext
         (scripted.advanced 3 scripted.three_rows true 3 scripted.into_struct [])) =
    Returns (false, snd scripted.refused).
Proof.
  apply (@FetchNext_transport_error scripted.externals scripted.collaborators
           (scripted.advanced 3 scripted.three_rows true 3 scripted.into_struct [])
           []
           (cursor.with_Index 3 (scripted.holding scripted.three_rows true 3)) 0);
    [now vm_compute | reflexivity | reflexivity].
Defined.

Lemma FetchBatch_refused_run :
  fst (cursor.FetchBatch
         (scripted.reading scripted.three_rows true 0 scripted.into_slice [])) =
    Returns (snd scripted.refused).
Proof.
  rewrite (@FetchBatch_transport_error scripted.externals scripted.collaborators
             (scripted.reading scripted.three_rows true 0 scripted.into_slice [])
             Go.Slice scripted.three_rows
             {| scripted.kind := Some Go.Slice;
                scripted.held := scripted.three_rows |}
             [] (scripted.holding scripted.three_rows true 0) 0
             (@foreign scripted.externals "connection refused"));
    [reflexivity | reflexivity | left; reflexivity | reflexivity | reflexivity
    | reflexivity | reflexivity | discriminate].
Defined.

Lemma scripted_send_keeps_max d resource id method c (w : World) :
  cursor.max (snd (fst (cursor.send d resource id method c w))) = cursor.max c.
Proof.
  destruct w as [|r w]; [reflexivity|]. cbn. unfold scripted.received.
  destruct (scripted.reply_error r); reflexivity.
Defined.

Lemma max_after_refill_run :
  cursor.max (cursor.self (snd (cursor.FetchNext
     (scripted.advanced 3 scripted.three_rows true 2 scripted.into_struct
        [scripted.batch 200 [Byte.x0d; Byte.x0e] false])))) = 2.
Proof.
  apply (@max_is_never_assigned scripted.externals scripted.collaborators
           scripted_send_keeps_max
           (scripted.advanced 3 scripted.three_rows true 2 scripted.into_struct
              [scripted.batch 200 [Byte.x0d; Byte.x0e] false])).
Defined.

Lemma NewDocument_then_Exist_run :
  snd (document.Exist
         {| document.Id := "users/7"; document.Rev := ""; document.Key := "7";
            document.Error := false; document.Message := "";
            document.Code := 0; document.Num := 0 |}
         scripted.db (scripted.online [scripted.status_only 200])) =
    {| world := []; trace := [call_get "document" "users/7" "GET"] |}.
Proof.
  apply (@NewDocument_then_Exist_reads scripted.externals scripted.reader
           "users/7"
           {| document.Id := "users/7"; document.Rev := ""; document.Key := "7";
              document.Error := false; document.Message := "";
              document.Code := 0; document.Num := 0 |}
           tt (scripted.online [scripted.status_only 200])).
  reflexivity.
Defined.

Lemma NewDocument_then_Updated_run :
  let d := {| document.Id := "users/7"; document.Rev := ""; document.Key := "7";
              document.Error := false; document.Message := "";
              document.Code := 0; document.Num := 0 |} in
  document.Updated d scripted.db (scripted.online [scripted.status_only 412]) =
    (Returns (false, precondition), scripted.online [scripted.status_only 412])
  /\
  snd (document.Updated (fst (document.SetRev d "_W2GDlX")) scripted.db
         (scripted.online [scripted.status_only 412])) =
    {| world := [];
       trace := [call_get "document" "users/7?rev=_W2GDlX" "GET"] |}.
Proof.
  cbv zeta.
  assert (Hnew : document.NewDocument (X := scripted.externals) "users/7" =
            (Some {| document.Id := "users/7"; document.Rev := "";
                     document.Key := "7"; document.Error := false;
                     document.Message := ""; document.Code := 0;
                     document.Num := 0 |}, None)) by reflexivity.
  destruct (@NewDocument_then_Updated_needs_SetRev scripted.externals
              scripted.reader _ _ "_W2GDlX" tt
              (scripted.online [scripted.status_only 412]) Hnew)
    as [H1 H2].
  split; [exact H1|]. apply H2. discriminate.
Defined.
